(** * A shallow embedding of [app.py]

    The application is a Flask program over an SQLite file: accounts
    ([users]), one free-text note per account ([notes]) and tic-tac-toe
    counters ([game_stats]).  Every route handler of [app.py] is
    transcribed as a computation in a small state monad whose state holds
    the database, the session of the request, the flashed messages and a
    log of the database calls the handler made.

    Conventions of the model:
    - a table is the list of its rows in storage (rowid) order, with the
      [AUTOINCREMENT] counter kept beside it;
    - Python and SQLite integers are [Z];
    - text is [string]; SQLite compares [TEXT] with the binary collation,
      which is [String.eqb];
    - salted hashing and [CURRENT_TIMESTAMP] read the outside world: the
      salt and the clock of a request are inputs ([environ]);
    - the password hash functions of werkzeug and the formatting of the
      timestamp are parameters of the development. *)

From Stdlib Require Import ZArith List String Bool Lia Permutation Sorted.
Import ListNotations.

Local Open Scope string_scope.
Local Open Scope list_scope.
Local Open Scope Z_scope.

(** ** The relational store *)

Module Store.

(** Rows of the three tables of [init_db]. *)

Record user_row := mk_user {
  u_id : Z;
  u_username : string;
  u_email : string;
  u_password_hash : string;
  u_created_at : string
}.

Record note_row := mk_note {
  n_id : Z;
  n_user_id : Z;
  n_content : string;
  n_last_updated : string
}.

Record stats_row := mk_stats {
  g_id : Z;
  g_user_id : Z;
  g_wins : Z;
  g_losses : Z;
  g_ties : Z
}.

(** A table: its rows in insertion order and the largest rowid ever
    handed out ([sqlite_sequence], from [AUTOINCREMENT]). *)

Record table (R : Type) := mk_table {
  rows : list R;
  seq : Z
}.

Arguments mk_table {R} _ _.
Arguments rows {R} _.
Arguments seq {R} _.

Definition empty_table {R : Type} : table R := mk_table [] 0.

Definition append_row {R : Type} (mk : Z -> R) (t : table R) : table R :=
  mk_table (rows t ++ [mk (seq t + 1)]) (seq t + 1).

Definition map_rows {R : Type} (f : R -> R) (t : table R) : table R :=
  mk_table (map f (rows t)) (seq t).

Record database := mk_db {
  users : table user_row;
  notes : table note_row;
  game_stats : table stats_row
}.

(** The file before [init_db] has created anything in it. *)

Definition empty_db : database := mk_db empty_table empty_table empty_table.

(** [SELECT * FROM users WHERE username = ?], [fetchone]. *)

Definition select_user_by_username (db : database) (username : string)
  : option user_row :=
  find (fun u => String.eqb (u_username u) username) (rows (users db)).

(** The two [UNIQUE] columns of [users]. *)

Definition username_taken (db : database) (username : string) : bool :=
  existsb (fun u => String.eqb (u_username u) username) (rows (users db)).

Definition email_taken (db : database) (email : string) : bool :=
  existsb (fun u => String.eqb (u_email u) email) (rows (users db)).

(** [INSERT INTO users (username, email, password_hash) VALUES (?, ?, ?)]:
    [None] is [sqlite3.IntegrityError], raised when a [UNIQUE] column
    would hold a value twice; nothing is written then. *)

Definition insert_user (db : database) (now username email password_hash : string)
  : option database :=
  if username_taken db username || email_taken db email then None
  else Some (mk_db
               (append_row (fun i => mk_user i username email password_hash now)
                           (users db))
               (notes db) (game_stats db)).

(** [INSERT OR IGNORE INTO users ...]: a conflict skips the row. *)

Definition insert_or_ignore_user (db : database)
    (now username email password_hash : string) : database :=
  match insert_user db now username email password_hash with
  | Some db' => db'
  | None => db
  end.

(** [SELECT id FROM notes WHERE user_id = ?], [fetchone]. *)

Definition select_note_id (db : database) (user_id : Z) : option Z :=
  option_map n_id (find (fun n => n_user_id n =? user_id) (rows (notes db))).

(** [SELECT content, last_updated FROM notes WHERE user_id = ?],
    [fetchone]. *)

Definition select_note (db : database) (user_id : Z) : option (string * string) :=
  option_map (fun n => (n_content n, n_last_updated n))
             (find (fun n => n_user_id n =? user_id) (rows (notes db))).

(** [UPDATE notes SET content = ?, last_updated = CURRENT_TIMESTAMP
    WHERE user_id = ?]: every row of the account is rewritten. *)

Definition update_note (db : database) (now : string) (content : string)
    (user_id : Z) : database :=
  mk_db (users db)
        (map_rows (fun n => if n_user_id n =? user_id
                            then mk_note (n_id n) (n_user_id n) content now
                            else n)
                  (notes db))
        (game_stats db).

(** [INSERT INTO notes (user_id, content) VALUES (?, ?)]; the column
    [last_updated] takes its default, [CURRENT_TIMESTAMP].  The table has
    no [UNIQUE] column, so the statement cannot fail. *)

Definition insert_note (db : database) (now : string) (user_id : Z)
    (content : string) : database :=
  mk_db (users db)
        (append_row (fun i => mk_note i user_id content now) (notes db))
        (game_stats db).

(** [SELECT wins, losses, ties FROM game_stats WHERE user_id = ?],
    [fetchone]. *)

Definition select_stats (db : database) (user_id : Z) : option (Z * Z * Z) :=
  option_map (fun g => (g_wins g, g_losses g, g_ties g))
             (find (fun g => g_user_id g =? user_id) (rows (game_stats db))).

(** [UPDATE game_stats SET wins = ?, losses = ?, ties = ?
    WHERE user_id = ?]. *)

Definition update_stats (db : database) (wins losses ties user_id : Z) : database :=
  mk_db (users db) (notes db)
        (map_rows (fun g => if g_user_id g =? user_id
                            then mk_stats (g_id g) (g_user_id g) wins losses ties
                            else g)
                  (game_stats db)).

(** [INSERT INTO game_stats (user_id, wins, losses, ties)
    VALUES (?, ?, ?, ?)]; [None] is the [IntegrityError] of
    [UNIQUE(user_id)]. *)

Definition insert_stats (db : database) (user_id wins losses ties : Z)
  : option database :=
  if existsb (fun g => g_user_id g =? user_id) (rows (game_stats db)) then None
  else Some (mk_db (users db) (notes db)
                   (append_row (fun i => mk_stats i user_id wins losses ties)
                               (game_stats db))).

(** The leaderboard query of [tictactoe]:
    [SELECT u.username, g.wins FROM users u JOIN game_stats g
     ON u.id = g.user_id WHERE g.wins > 0 ORDER BY g.wins DESC LIMIT 5].

    The join is the nested loop over [users] then [game_stats]; [ORDER BY]
    is a stable insertion sort on the key.  SQLite leaves the order of rows
    with equal keys open, and nothing proved below relies on it. *)

Definition join_users_stats (db : database) : list (string * Z) :=
  flat_map (fun u =>
              map (fun g => (u_username u, g_wins g))
                  (filter (fun g => u_id u =? g_user_id g)
                          (rows (game_stats db))))
           (rows (users db)).

Fixpoint insert_desc (r : string * Z) (l : list (string * Z)) : list (string * Z) :=
  match l with
  | [] => [r]
  | r' :: l' => if snd r' <=? snd r then r :: l else r' :: insert_desc r l'
  end.

Fixpoint order_by_wins_desc (l : list (string * Z)) : list (string * Z) :=
  match l with
  | [] => []
  | r :: l' => insert_desc r (order_by_wins_desc l')
  end.

Definition select_leaderboard (db : database) : list (string * Z) :=
  firstn 5 (order_by_wins_desc
              (filter (fun r => 0 <? snd r) (join_users_stats db))).

End Store.

Import Store.

(** ** Requests, sessions and responses *)

(** A parsed JSON document.  Python's [None] is [JNull]; numbers with a
    fraction are not needed by any handler and are left out. *)

#[warnings="-register-all"] Inductive json : Type :=
  | JNull
  | JBool (b : bool)
  | JNum (n : Z)
  | JStr (s : string)
  | JArr (items : list json)
  | JObj (members : list (string * json)).

(** What [request.json] finds in the body. *)

Inductive json_body : Type :=
  | NoJson
  | Malformed
  | Parsed (j : json).

(** [d.get(key)] on the dict Python builds from a JSON object: the last
    member with the key wins, a missing key gives [None]. *)

Fixpoint dict_get (key : string) (members : list (string * json)) : json :=
  match members with
  | [] => JNull
  | (k, v) :: rest =>
      if existsb (fun kv => String.eqb (fst kv) key) rest then dict_get key rest
      else if String.eqb k key then v else JNull
  end.

(** [result == 'win'] and its siblings: only a JSON string can equal a
    Python [str]. *)

Definition json_eq_str (j : json) (s : string) : bool :=
  match j with
  | JStr s' => String.eqb s' s
  | _ => false
  end.

Inductive method := GET | POST.

Inductive route :=
  | r_landing | r_login | r_register | r_dashboard | r_notepad
  | r_tictactoe | r_update_game_stats | r_wordgame | r_logout.

Record request := mk_request {
  req_route : route;
  req_method : method;
  req_form : list (string * string);
  req_json : json_body
}.

(** [request.form[key]]: the first value under the key; [None] is the
    [BadRequestKeyError] of a missing field. *)

Fixpoint form_get (key : string) (form : list (string * string)) : option string :=
  match form with
  | [] => None
  | (k, v) :: rest => if String.eqb k key then Some v else form_get key rest
  end.

(** The two keys the application keeps in Flask's [session]. *)

Record session := mk_session {
  sess_user_id : option Z;
  sess_username : option string
}.

Definition empty_session : session := mk_session None None.

(** What a request reads from outside the program. *)

Record environ := mk_environ {
  env_now : string;
  env_salt : string
}.

Inductive endpoint := ep_landing | ep_login | ep_dashboard.

Inductive page :=
  | landing_html
  | login_html
  | register_html
  | dashboard_html (username : string)
  | notepad_html (username notes : string) (last_saved : option string)
  | tictactoe_html (username : string) (leaderboard : list (string * Z))
  | wordgame_html (username : string).

(** [Json status code] is [jsonify({'status': status}), code];
    [HttpError] is an error page of the framework: 400 for a missing form
    field or a body that is not JSON, 415 for a body of another content
    type, 405 for a method the route does not take, 500 for an exception
    no handler catches. *)

Inductive response :=
  | Render (p : page)
  | Redirect (e : endpoint)
  | Json (status : string) (code : Z)
  | HttpError (code : Z).

(** The calls a handler makes on the [sqlite3] module. *)

Inductive statement :=
  | SelectUserByUsername | InsertUser
  | SelectNoteId | UpdateNote | InsertNote | SelectNote
  | SelectLeaderboard
  | SelectStats | UpdateStats | InsertStats.

Inductive db_event :=
  | Connect
  | Execute (s : statement)
  | Commit
  | Close.

(** The functions the application takes from its libraries. *)

Class Platform := {
  (* werkzeug.security.generate_password_hash, the salt made explicit *)
  generate_password_hash : string -> string -> string;
  (* werkzeug.security.check_password_hash pwhash password *)
  check_password_hash : string -> string -> bool;
  (* lines 176-181 of notepad: fromisoformat and strftime, or the raw
     text when that raises *)
  format_timestamp : string -> string
}.

(** ** The handler monad *)

Record hstate := mk_hstate {
  h_db : database;
  h_session : session;
  h_flashes : list (string * string);
  h_trace : list db_event
}.

Definition M (A : Type) : Type := hstate -> A * hstate.

Definition ret {A : Type} (a : A) : M A := fun st => (a, st).

Definition bind {A B : Type} (m : M A) (k : A -> M B) : M B :=
  fun st => let (a, st') := m st in k a st'.

Notation "x <- m ;; k" := (bind m (fun x => k))
  (at level 61, m at next level, right associativity).
Notation "m ;; k" := (bind m (fun _ => k))
  (at level 61, right associativity).

Definition get_db : M database := fun st => (h_db st, st).

Definition put_db (db : database) : M unit :=
  fun st => (tt, mk_hstate db (h_session st) (h_flashes st) (h_trace st)).

Definition get_session : M session := fun st => (h_session st, st).

Definition put_session (s : session) : M unit :=
  fun st => (tt, mk_hstate (h_db st) s (h_flashes st) (h_trace st)).

Definition flash (message category : string) : M unit :=
  fun st => (tt, mk_hstate (h_db st) (h_session st)
                           (h_flashes st ++ [(message, category)]) (h_trace st)).

Definition emit (e : db_event) : M unit :=
  fun st => (tt, mk_hstate (h_db st) (h_session st) (h_flashes st)
                           (h_trace st ++ [e])).

(** [cursor.execute] of a query, and of a statement that writes. *)

Definition query {A : Type} (s : statement) (q : database -> A) : M A :=
  emit (Execute s);; db <- get_db;; ret (q db).

Definition exec (s : statement) (f : database -> database) : M unit :=
  emit (Execute s);; db <- get_db;; put_db (f db).

(** A write that can raise [IntegrityError]: [false] when it did. *)

Definition try_exec (s : statement) (f : database -> option database) : M bool :=
  emit (Execute s);;
  db <- get_db;;
  match f db with
  | Some db' => put_db db';; ret true
  | None => ret false
  end.

(** ** The handlers of [app.py] *)

Section Handlers.

Context {P : Platform}.

(** [init_db]: the three [CREATE TABLE IF NOT EXISTS] leave an existing
    table as it is, and the demo account is added unless its username or
    email is there already. *)

Definition init_db (env : environ) (db : database) : database :=
  let demo_password_hash := generate_password_hash (env_salt env) "demo123" in
  insert_or_ignore_user db (env_now env) "demo" "demo@example.com"
                        demo_password_hash.

Definition get_user (username : string) : M (option user_row) :=
  emit Connect;;
  user <- query SelectUserByUsername
                (fun db => select_user_by_username db username);;
  emit Close;;
  ret user.

Definition landing : M response := ret (Render landing_html).

Definition login (req : request) : M response :=
  match req_method req with
  | POST =>
      match form_get "username" (req_form req) with
      | None => ret (HttpError 400)
      | Some username =>
      match form_get "password" (req_form req) with
      | None => ret (HttpError 400)
      | Some password =>
          user <- get_user username;;
          let refused :=
            flash "Invalid username or password" "error";;
            ret (Render login_html) in
          match user with
          | Some u =>
              if check_password_hash (u_password_hash u) password then
                put_session (mk_session (Some (u_id u)) (Some (u_username u)));;
                flash "Login successful!" "success";;
                ret (Redirect ep_dashboard)
              else refused
          | None => refused
          end
      end
      end
  | GET => ret (Render login_html)
  end.

Definition register (env : environ) (req : request) : M response :=
  match req_method req with
  | POST =>
      match form_get "username" (req_form req) with
      | None => ret (HttpError 400)
      | Some username =>
      match form_get "email" (req_form req) with
      | None => ret (HttpError 400)
      | Some email =>
      match form_get "password" (req_form req) with
      | None => ret (HttpError 400)
      | Some password =>
          existing <- get_user username;;
          match existing with
          | Some _ =>
              flash "Username already exists" "error";;
              ret (Render register_html)
          | None =>
              let password_hash :=
                generate_password_hash (env_salt env) password in
              emit Connect;;
              inserted <- try_exec InsertUser
                            (fun db => insert_user db (env_now env)
                                                   username email password_hash);;
              if inserted then
                emit Commit;;
                flash "Registration successful! Please login." "success";;
                emit Close;;
                ret (Redirect ep_login)
              else
                flash "Username or email already exists" "error";;
                emit Close;;
                ret (Render register_html)
          end
      end
      end
      end
  | GET => ret (Render register_html)
  end.

(** [render_template(..., username=session['username'])]: the lookup
    raises [KeyError] on a session without the key. *)

Definition render_for_user (p : string -> page) : M response :=
  s <- get_session;;
  match sess_username s with
  | Some username => ret (Render (p username))
  | None => ret (HttpError 500)
  end.

Definition dashboard : M response :=
  s <- get_session;;
  match sess_user_id s with
  | None =>
      flash "Please login to access the dashboard" "error";;
      ret (Redirect ep_login)
  | Some _ => render_for_user dashboard_html
  end.

(** Lines 167-188 of [notepad]: fetch and show the note. *)

Definition notepad_show (user_id : Z) : M response :=
  note_data <- query SelectNote (fun db => select_note db user_id);;
  let notes := match note_data with Some (c, _) => c | None => "" end in
  let last_saved := match note_data with Some (_, t) => Some t | None => None end in
  let last_saved :=
    match last_saved with
    | Some t => if String.eqb t "" then Some t else Some (format_timestamp t)
    | None => None
    end in
  emit Close;;
  render_for_user (fun username => notepad_html username notes last_saved).

Definition notepad (env : environ) (req : request) : M response :=
  s <- get_session;;
  match sess_user_id s with
  | None =>
      flash "Please login to access the notepad" "error";;
      ret (Redirect ep_login)
  | Some user_id =>
      emit Connect;;
      match req_method req with
      | POST =>
          match form_get "notes" (req_form req) with
          | None => ret (HttpError 400)
          | Some notes_content =>
              existing_note <- query SelectNoteId
                                 (fun db => select_note_id db user_id);;
              match existing_note with
              | Some _ =>
                  exec UpdateNote
                       (fun db => update_note db (env_now env) notes_content user_id)
              | None =>
                  exec InsertNote
                       (fun db => insert_note db (env_now env) user_id notes_content)
              end;;
              emit Commit;;
              flash "Notes saved successfully!" "success";;
              notepad_show user_id
          end
      | GET => notepad_show user_id
      end
  end.

Definition tictactoe : M response :=
  s <- get_session;;
  match sess_user_id s with
  | None =>
      flash "Please login to access the game" "error";;
      ret (Redirect ep_login)
  | Some _ =>
      emit Connect;;
      leaderboard <- query SelectLeaderboard select_leaderboard;;
      emit Close;;
      render_for_user (fun username => tictactoe_html username leaderboard)
  end.

(** The three counters after [result] has been counted on a row that
    exists (lines 230-236), and those of a new row (lines 243-245). *)

Definition bump (result : json) (stats : Z * Z * Z) : Z * Z * Z :=
  let '(wins, losses, ties) := stats in
  if json_eq_str result "win" then (wins + 1, losses, ties)
  else if json_eq_str result "loss" then (wins, losses + 1, ties)
  else if json_eq_str result "tie" then (wins, losses, ties + 1)
  else (wins, losses, ties).

Definition first_counts (result : json) : Z * Z * Z :=
  (if json_eq_str result "win" then 1 else 0,
   if json_eq_str result "loss" then 1 else 0,
   if json_eq_str result "tie" then 1 else 0).

Definition update_game_stats (req : request) : M response :=
  s <- get_session;;
  match sess_user_id s with
  | None => ret (Json "error" 401)
  | Some user_id =>
      match req_json req with
      | NoJson => ret (HttpError 415)
      | Malformed => ret (HttpError 400)
      | Parsed (JObj members) =>
          let result := dict_get "result" members in
          emit Connect;;
          stats <- query SelectStats (fun db => select_stats db user_id);;
          match stats with
          | Some stats =>
              let '(wins, losses, ties) := bump result stats in
              exec UpdateStats
                   (fun db => update_stats db wins losses ties user_id);;
              emit Commit;;
              emit Close;;
              ret (Json "success" 200)
          | None =>
              let '(wins, losses, ties) := first_counts result in
              inserted <- try_exec InsertStats
                            (fun db => insert_stats db user_id wins losses ties);;
              if inserted then
                emit Commit;;
                emit Close;;
                ret (Json "success" 200)
              else ret (HttpError 500)
          end
      | Parsed _ => ret (HttpError 500)
      end
  end.

Definition wordgame : M response :=
  s <- get_session;;
  match sess_user_id s with
  | None =>
      flash "Please login to access the word game" "error";;
      ret (Redirect ep_login)
  | Some _ => render_for_user wordgame_html
  end.

Definition logout : M response :=
  put_session empty_session;;
  flash "You have been logged out" "info";;
  ret (Redirect ep_landing).

(** The routing table: the [@app.route] decorators with their methods. *)

Definition handle (env : environ) (req : request) : M response :=
  match req_route req, req_method req with
  | r_landing, GET => landing
  | r_login, _ => login req
  | r_register, _ => register env req
  | r_dashboard, GET => dashboard
  | r_notepad, _ => notepad env req
  | r_tictactoe, GET => tictactoe
  | r_update_game_stats, POST => update_game_stats req
  | r_wordgame, GET => wordgame
  | r_logout, GET => logout
  | _, _ => ret (HttpError 405)
  end.

(** ** The running application

    The database file is shared by all requests; each browser holds the
    session the last response gave it.  A request arrives with no session
    or with one a browser holds, and the process may be started again at
    any time. *)

Record system := mk_system {
  sys_db : database;
  sys_cookies : list session
}.

Definition serve (env : environ) (req : request) (db : database) (s : session)
  : response * hstate :=
  handle env req (mk_hstate db s [] []).

Inductive step : system -> system -> Prop :=
  | step_request (env : environ) (req : request) (s : session) (sys : system) :
      s = empty_session \/ In s (sys_cookies sys) ->
      step sys
           (mk_system (h_db (snd (serve env req (sys_db sys) s)))
                      (h_session (snd (serve env req (sys_db sys) s))
                       :: sys_cookies sys))
  | step_restart (env : environ) (sys : system) :
      step sys (mk_system (init_db env (sys_db sys)) (sys_cookies sys)).

Inductive reachable : system -> Prop :=
  | reach_start (env : environ) :
      reachable (mk_system (init_db env empty_db) [])
  | reach_step (sys sys' : system) :
      reachable sys -> step sys sys' -> reachable sys'.

End Handlers.

(** ** Vocabulary of the properties *)

(** A handler run that made no database call and left the file as it
    was. *)

Definition untouched (st st' : hstate) : Prop :=
  h_db st' = h_db st /\ h_trace st' = h_trace st.

(** The routes behind the session check. *)

Definition protected (r : route) : bool :=
  match r with
  | r_dashboard | r_notepad | r_tictactoe | r_update_game_stats | r_wordgame => true
  | _ => false
  end.

(** The run ended on a flashed message of category ["error"]. *)

Definition flashed_error (st st' : hstate) : Prop :=
  exists message, h_flashes st' = h_flashes st ++ [(message, "error")].

(** Rows of an account in [notes] and in [game_stats]. *)

Definition notes_of (db : database) (user_id : Z) : list note_row :=
  filter (fun n => n_user_id n =? user_id) (rows (notes db)).

Definition stats_of (db : database) (user_id : Z) : list stats_row :=
  filter (fun g => g_user_id g =? user_id) (rows (game_stats db)).

(** At most one note per account. *)

Definition notes_inv (db : database) : Prop :=
  forall user_id, (List.length (notes_of db user_id) <= 1)%nat.

(** At most one [game_stats] row per account, and no negative counter. *)

Definition stats_inv (db : database) : Prop :=
  NoDup (map g_user_id (rows (game_stats db))) /\
  Forall (fun g => 0 <= g_wins g /\ 0 <= g_losses g /\ 0 <= g_ties g)
         (rows (game_stats db)).

(** Every row of [game_stats] is still there, with counters at least as
    large. *)

Definition stats_le (db db' : database) : Prop :=
  forall g, In g (rows (game_stats db)) ->
    exists g', In g' (rows (game_stats db')) /\
      g_id g' = g_id g /\ g_user_id g' = g_user_id g /\
      g_wins g <= g_wins g' /\ g_losses g <= g_losses g' /\ g_ties g <= g_ties g'.

(** Exactly one of three counters is 1 and the other two are 0. *)

Definition one_counted (c : Z * Z * Z) : Prop :=
  c = (1, 0, 0) \/ c = (0, 1, 0) \/ c = (0, 0, 1).

(** The first report as the sentence of the specification has it: whatever
    the reported result, the new row has exactly one counter at 1. *)

Definition first_report_counts_one : Prop :=
  forall (req : request) (st : hstate) (user_id : Z)
         (members : list (string * json)),
    sess_user_id (h_session st) = Some user_id ->
    req_json req = Parsed (JObj members) ->
    select_stats (h_db st) user_id = None ->
    exists c, select_stats (h_db (snd (update_game_stats req st))) user_id = Some c /\
              one_counted c.

(** Descending order of the [wins] column of a result set. *)

Definition ge_wins (a b : string * Z) : Prop := snd a >= snd b.

Definition descending (l : list (string * Z)) : Prop := Sorted ge_wins l.

(** A session as [login] writes it. *)

Definition session_of (user_id : Z) (username : string) : session :=
  mk_session (Some user_id) (Some username).

(** The requests a browser sends for the two writes and the read. *)

Definition save_request (content : string) : request :=
  mk_request r_notepad POST [("notes", content)] NoJson.

Definition read_request : request := mk_request r_notepad GET [] NoJson.

Definition report_request (result : json) : request :=
  mk_request r_update_game_stats POST [] (Parsed (JObj [("result", result)])).

Definition register_request (username email password : string) : request :=
  mk_request r_register POST
             [("username", username); ("email", email); ("password", password)]
             NoJson.

Definition login_request (username password : string) : request :=
  mk_request r_login POST [("username", username); ("password", password)] NoJson.

(** An operation on the store: a request served under some session, or a
    start of the process. *)

Inductive operation :=
  | Request (env : environ) (req : request) (s : session)
  | Startup (env : environ).

Definition perform {P : Platform} (op : operation) (db : database) : database :=
  match op with
  | Request env req s => h_db (snd (serve env req db s))
  | Startup env => init_db env db
  end.

(** The database after an account reported a result, and after it saved a
    note. *)

Definition report (user_id : Z) (result : json) (db : database) : database :=
  h_db (snd (update_game_stats (report_request result)
                               (mk_hstate db (session_of user_id "") [] []))).

Definition save {P : Platform} (user_id : Z) (db : database)
    (ec : environ * string) : database :=
  h_db (snd (notepad (fst ec) (save_request (snd ec))
                     (mk_hstate db (session_of user_id "") [] []))).

(** The effect one request can have on the database, under the session
    it came with: nothing, a new account, a note rewritten or added for the
    account of the session, a [game_stats] row rewritten or added for it. *)

Inductive db_step (s : session) : database -> database -> Prop :=
  | ds_none (db : database) : db_step s db db
  | ds_register (db db' : database) (now username email pwhash : string) :
      insert_user db now username email pwhash = Some db' ->
      db_step s db db'
  | ds_note_update (db : database) (user_id : Z) (now content : string) :
      sess_user_id s = Some user_id ->
      db_step s db (update_note db now content user_id)
  | ds_note_insert (db : database) (user_id : Z) (now content : string) :
      sess_user_id s = Some user_id ->
      select_note_id db user_id = None ->
      db_step s db (insert_note db now user_id content)
  | ds_stats_update (db : database) (user_id : Z) (result : json)
                    (stats : Z * Z * Z) (wins losses ties : Z) :
      sess_user_id s = Some user_id ->
      select_stats db user_id = Some stats ->
      bump result stats = (wins, losses, ties) ->
      db_step s db (update_stats db wins losses ties user_id)
  | ds_stats_insert (db db' : database) (user_id : Z) (result : json)
                    (wins losses ties : Z) :
      sess_user_id s = Some user_id ->
      first_counts result = (wins, losses, ties) ->
      insert_stats db user_id wins losses ties = Some db' ->
      db_step s db db'.

(** Account identities in use are identities [users] has handed out. *)

Definition refs_bounded (db : database) : Prop :=
  (forall u, In u (rows (users db)) -> u_id u <= seq (users db)) /\
  (forall n, In n (rows (notes db)) -> n_user_id n <= seq (users db)) /\
  (forall g, In g (rows (game_stats db)) -> g_user_id g <= seq (users db)).

Definition session_bounded (db : database) (s : session) : Prop :=
  forall user_id, sess_user_id s = Some user_id -> user_id <= seq (users db).

Definition sys_inv (sys : system) : Prop :=
  refs_bounded (sys_db sys) /\
  notes_inv (sys_db sys) /\
  stats_inv (sys_db sys) /\
  Forall (session_bounded (sys_db sys)) (sys_cookies sys).

(** The constraints of [users]: [id] is the primary key handed out by
    [AUTOINCREMENT], [username] and [email] are [UNIQUE]. *)

Definition users_inv (db : database) : Prop :=
  NoDup (map u_id (rows (users db))) /\
  NoDup (map u_username (rows (users db))) /\
  NoDup (map u_email (rows (users db))) /\
  (forall u, In u (rows (users db)) -> u_id u <= seq (users db)).

(** Every account row is still there, unchanged, in the same place. *)

Definition users_kept (db db' : database) : Prop :=
  exists added, rows (users db') = rows (users db) ++ added.

(** The session names an account of [users], by its id and its username. *)


(** Every note and every [game_stats] row belongs to an account. *)


(** What one reported result adds to the counter named [s]. *)

Definition counted (result : json) (s : string) : Z :=
  if json_eq_str result s then 1 else 0.

(** How many of the reported results are the string [s]. *)

Definition count_result (s : string) (results : list json) : Z :=
  Z.of_nat (List.length (filter (fun r => json_eq_str r s) results)).

(** The database after an account reported a list of results in turn. *)

Definition report_all (user_id : Z) (results : list json) (db : database)
  : database :=
  fold_left (fun d r => report user_id r d) results db.

(** The statements that write. *)

Definition writes (s : statement) : bool :=
  match s with
  | InsertUser | UpdateNote | InsertNote | UpdateStats | InsertStats => true
  | _ => false
  end.

(** How a timestamp read from [notes] is shown (lines 175-181). *)

Definition shown_timestamp {P : Platform} (t : string) : string :=
  if String.eqb t "" then t else format_timestamp t.

(** The database calls of a run: the calls it made are added to the log
    that was there; they start with opening a connection; and the database
    is changed only by a run that commits. *)

Definition disciplined (st st' : hstate) : Prop :=
  exists emitted,
    h_trace st' = h_trace st ++ emitted /\
    (h_db st' <> h_db st -> In Commit emitted) /\
    (emitted <> [] -> hd_error emitted = Some Connect).

(** A platform to run the handlers on: the "hash" keeps salt and password
    apart with a [$], and timestamps are shown as they are stored. *)

Definition toy_check (pwhash password : string) : bool :=
  match index 0 "$" pwhash with
  | Some i =>
      String.eqb (substring (S i) (String.length pwhash - S i) pwhash) password
  | None => false
  end.

#[local] Instance toy_platform : Platform := {|
  generate_password_hash := fun salt password => append salt (append "$" password);
  check_password_hash := toy_check;
  format_timestamp := fun t => t
|}.

Definition env0 : environ := mk_environ "2024-01-01 00:00:00" "s0".
Definition env1 : environ := mk_environ "2024-01-02 00:00:00" "s1".

Definition db0 : database := init_db env0 empty_db.

(** States over the freshly started application: a visitor without a
    session, and the demo account logged in. *)

Definition st_anon : hstate := mk_hstate db0 empty_session [] [].

Definition st_demo : hstate := mk_hstate db0 (session_of 1 "demo") [] [].

(** The demo account after one reported win. *)

Definition st_played : hstate :=
  mk_hstate (report 1 (JStr "win") db0) (session_of 1 "demo") [] [].

(** Five accounts whose win counts are 3, 0, 5, 1, 3 in storage order. *)

Definition db_five : database :=
  mk_db (mk_table [mk_user 1 "ann" "ann@example.com" "h" "t";
                   mk_user 2 "bob" "bob@example.com" "h" "t";
                   mk_user 3 "cat" "cat@example.com" "h" "t";
                   mk_user 4 "dan" "dan@example.com" "h" "t";
                   mk_user 5 "eve" "eve@example.com" "h" "t"] 5)
        empty_table
        (mk_table [mk_stats 1 1 3 0 0; mk_stats 2 2 0 4 1; mk_stats 3 3 5 0 0;
                   mk_stats 4 4 1 1 1; mk_stats 5 5 3 2 0] 5).

(** ** Properties *)

Ltac run :=
  cbv [bind ret get_session put_session get_db put_db flash emit query exec
       try_exec render_for_user get_user] in *;
  cbn [fst snd h_db h_session h_flashes h_trace] in *.

Section Properties.

Context {P : Platform}.

(** *** The session check *)

Lemma gate_dashboard (st : hstate) :
  sess_user_id (h_session st) = None ->
  fst (dashboard st) = Redirect ep_login /\ untouched st (snd (dashboard st)).
Proof.
  intros H. unfold dashboard, untouched. run. rewrite H. run. auto.
Qed.

Lemma gate_notepad (env : environ) (req : request) (st : hstate) :
  sess_user_id (h_session st) = None ->
  fst (notepad env req st) = Redirect ep_login /\
  untouched st (snd (notepad env req st)).
Proof.
  intros H. unfold notepad, untouched. run. rewrite H. run. auto.
Qed.

Lemma gate_tictactoe (st : hstate) :
  sess_user_id (h_session st) = None ->
  fst (tictactoe st) = Redirect ep_login /\ untouched st (snd (tictactoe st)).
Proof.
  intros H. unfold tictactoe, untouched. run. rewrite H. run. auto.
Qed.

Lemma gate_wordgame (st : hstate) :
  sess_user_id (h_session st) = None ->
  fst (wordgame st) = Redirect ep_login /\ untouched st (snd (wordgame st)).
Proof.
  intros H. unfold wordgame, untouched. run. rewrite H. run. auto.
Qed.

Lemma gate_update_game_stats (req : request) (st : hstate) :
  sess_user_id (h_session st) = None ->
  update_game_stats req st = (Json "error" 401, st).
Proof.
  intros H. unfold update_game_stats. run. rewrite H. reflexivity.
Qed.

(** C1.  A request without an authenticated session never reaches the
    database: each page handler behind the session check answers with a
    redirect to the login page, the stats-update handler answers
    [{'status': 'error'}] with code 401 (not a success), and in every case
    the database is the one the handler found and no database call was
    made.  Through the routing table the same holds for every protected
    route, where a method the route does not take is answered 405. *)
Theorem unauthenticated_never_touches_storage
    (env : environ) (req : request) (st : hstate)
    (Hanon : sess_user_id (h_session st) = None) :
  (fst (notepad env req st) = Redirect ep_login /\
   untouched st (snd (notepad env req st))) /\
  (fst (tictactoe st) = Redirect ep_login /\ untouched st (snd (tictactoe st))) /\
  (fst (wordgame st) = Redirect ep_login /\ untouched st (snd (wordgame st))) /\
  (fst (dashboard st) = Redirect ep_login /\ untouched st (snd (dashboard st))) /\
  (fst (update_game_stats req st) = Json "error" 401 /\
   fst (update_game_stats req st) <> Json "success" 200 /\
   snd (update_game_stats req st) = st) /\
  (protected (req_route req) = true ->
   untouched st (snd (handle env req st)) /\
   h_session (snd (handle env req st)) = h_session st /\
   (fst (handle env req st) = Redirect ep_login \/
    fst (handle env req st) = Json "error" 401 \/
    fst (handle env req st) = HttpError 405)).
Proof.
  pose proof (gate_notepad env req st Hanon) as Hn.
  pose proof (gate_tictactoe st Hanon) as Ht.
  pose proof (gate_wordgame st Hanon) as Hw.
  pose proof (gate_dashboard st Hanon) as Hd.
  pose proof (gate_update_game_stats req st Hanon) as Hu.
  split; [exact Hn|]. split; [exact Ht|]. split; [exact Hw|].
  split; [exact Hd|].
  split.
  { rewrite Hu. simpl. repeat split; congruence. }
  intros Hprot. unfold handle.
  assert (Hsess : forall h : M response,
             untouched st (snd (h st)) ->
             (h = notepad env req \/ h = tictactoe \/ h = wordgame \/ h = dashboard) ->
             h_session (snd (h st)) = h_session st).
  { intros h _ [-> | [-> | [-> | ->]]];
      [unfold notepad | unfold tictactoe | unfold wordgame | unfold dashboard];
      run; rewrite Hanon; reflexivity. }
  destruct (req_route req), (req_method req); simpl in Hprot; try discriminate;
    try (split; [split; reflexivity | split; [reflexivity | right; right; reflexivity]]);
    try (rewrite Hu; split; [split; reflexivity | split; [reflexivity | right; left; reflexivity]]);
    (split; [first [apply Hn | apply Ht | apply Hw | apply Hd]
            | split; [apply Hsess; [first [apply Hn | apply Ht | apply Hw | apply Hd] | tauto]
                     | left; first [apply Hn | apply Ht | apply Hw | apply Hd]]]).
Qed.

(** *** Lists: [find], [existsb] and rows added at the end *)

Lemma find_none_existsb {A : Type} (p : A -> bool) (l : list A) :
  find p l = None <-> existsb p l = false.
Proof.
  induction l as [|a l IH]; simpl.
  - tauto.
  - destruct (p a); simpl; [split; discriminate | exact IH].
Qed.

Lemma find_some_existsb {A : Type} (p : A -> bool) (l : list A) (a : A) :
  find p l = Some a -> existsb p l = true.
Proof.
  intros H. destruct (existsb p l) eqn:E; [reflexivity|].
  apply find_none_existsb in E. congruence.
Qed.

Lemma find_app {A : Type} (p : A -> bool) (l l' : list A) :
  find p (l ++ l') = match find p l with Some a => Some a | None => find p l' end.
Proof.
  induction l as [|a l IH]; simpl; [reflexivity|].
  destruct (p a); [reflexivity | exact IH].
Qed.

Lemma existsb_snoc {A : Type} (p : A -> bool) (l : list A) (a : A) :
  existsb p (l ++ [a]) = existsb p l || p a.
Proof.
  rewrite existsb_app. simpl. now rewrite orb_false_r.
Qed.

(** *** Registration and login *)

Lemma register_collision (env : environ) (req : request) (st : hstate)
    (username email password : string) :
  req_method req = POST ->
  form_get "username" (req_form req) = Some username ->
  form_get "email" (req_form req) = Some email ->
  form_get "password" (req_form req) = Some password ->
  username_taken (h_db st) username = true \/ email_taken (h_db st) email = true ->
  fst (register env req st) = Render register_html /\
  flashed_error st (snd (register env req st)) /\
  h_db (snd (register env req st)) = h_db st /\
  h_session (snd (register env req st)) = h_session st.
Proof.
  intros Hm Hu He Hp Hdup. unfold register, flashed_error.
  rewrite Hm, Hu, He, Hp. run.
  destruct (select_user_by_username (h_db st) username) as [u|] eqn:Hsel.
  - run. repeat split. eexists. reflexivity.
  - run. unfold insert_user.
    assert (Hnot : username_taken (h_db st) username = false).
    { apply find_none_existsb. exact Hsel. }
    destruct Hdup as [Hdup | Hdup]; [congruence|].
    rewrite Hnot, Hdup. run. repeat split. eexists. reflexivity.
Qed.

Lemma register_fresh (env : environ) (req : request) (st : hstate)
    (username email password : string) :
  req_method req = POST ->
  form_get "username" (req_form req) = Some username ->
  form_get "email" (req_form req) = Some email ->
  form_get "password" (req_form req) = Some password ->
  username_taken (h_db st) username = false ->
  email_taken (h_db st) email = false ->
  fst (register env req st) = Redirect ep_login /\
  h_db (snd (register env req st)) =
    mk_db (append_row
             (fun i => mk_user i username email
                               (generate_password_hash (env_salt env) password)
                               (env_now env))
             (users (h_db st)))
          (notes (h_db st)) (game_stats (h_db st)) /\
  h_session (snd (register env req st)) = h_session st.
Proof.
  intros Hm Hu He Hp Hfu Hfe. unfold register.
  rewrite Hm, Hu, He, Hp. run.
  assert (Hsel : select_user_by_username (h_db st) username = None).
  { apply find_none_existsb. exact Hfu. }
  rewrite Hsel. run. unfold insert_user. rewrite Hfu, Hfe. run. auto.
Qed.

(** C2.  A registration whose username or whose email is already in
    [users] fails: the form is shown again with an error message and the
    database is left as it was, so no account row is added.  Otherwise the
    answer is the redirect to the login page and exactly one row is added to
    [users], holding the username, the email and the salted hash of the
    password, and from then on both the username and the email are taken, so
    that a second registration with either of them fails. *)
Theorem register_rejects_duplicates
    (env : environ) (req : request) (st : hstate)
    (username email password : string)
    (Hm : req_method req = POST)
    (Hu : form_get "username" (req_form req) = Some username)
    (He : form_get "email" (req_form req) = Some email)
    (Hp : form_get "password" (req_form req) = Some password) :
  let db := h_db st in
  let db' := h_db (snd (register env req st)) in
  (username_taken db username = true \/ email_taken db email = true ->
   fst (register env req st) = Render register_html /\
   flashed_error st (snd (register env req st)) /\
   db' = db) /\
  (username_taken db username = false /\ email_taken db email = false ->
   fst (register env req st) = Redirect ep_login /\
   rows (users db') =
     rows (users db) ++
     [mk_user (seq (users db) + 1) username email
              (generate_password_hash (env_salt env) password) (env_now env)] /\
   notes db' = notes db /\ game_stats db' = game_stats db /\
   username_taken db' username = true /\ email_taken db' email = true /\
   forall (env2 : environ) (req2 : request) (st2 : hstate)
          (username2 email2 password2 : string),
     h_db st2 = db' ->
     req_method req2 = POST ->
     form_get "username" (req_form req2) = Some username2 ->
     form_get "email" (req_form req2) = Some email2 ->
     form_get "password" (req_form req2) = Some password2 ->
     username2 = username \/ email2 = email ->
     fst (register env2 req2 st2) = Render register_html /\
     h_db (snd (register env2 req2 st2)) = db').
Proof.
  intros db db'. split.
  - intros Hdup.
    destruct (register_collision env req st username email password Hm Hu He Hp Hdup)
      as (H1 & H2 & H3 & _).
    auto.
  - intros [Hfu Hfe].
    destruct (register_fresh env req st username email password Hm Hu He Hp Hfu Hfe)
      as (H1 & H2 & _).
    assert (Htu : username_taken db' username = true).
    { unfold db'. rewrite H2. unfold username_taken. simpl.
      rewrite existsb_snoc. simpl. rewrite String.eqb_refl. apply orb_true_r. }
    assert (Hte : email_taken db' email = true).
    { unfold db'. rewrite H2. unfold email_taken. simpl.
      rewrite existsb_snoc. simpl. rewrite String.eqb_refl. apply orb_true_r. }
    split; [exact H1|].
    split; [unfold db'; rewrite H2; reflexivity|].
    split; [unfold db'; rewrite H2; reflexivity|].
    split; [unfold db'; rewrite H2; reflexivity|].
    split; [exact Htu|]. split; [exact Hte|].
    intros env2 req2 st2 username2 email2 password2 Hdb Hm2 Hu2 He2 Hp2 Hsame.
    assert (Hdup : username_taken (h_db st2) username2 = true \/
                   email_taken (h_db st2) email2 = true).
    { rewrite Hdb. destruct Hsame as [-> | ->]; [left | right]; assumption. }
    destruct (register_collision env2 req2 st2 username2 email2 password2
                                 Hm2 Hu2 He2 Hp2 Hdup) as (R1 & _ & R3 & _).
    split; [exact R1 | now rewrite R3].
Qed.

(** C3.  A login that fails, because no account has the username or
    because the stored hash does not match the password, ends in one and the
    same state and answer: the login form, the single message
    ['Invalid username or password'], the session as it was (none is
    established) and the database as it was. *)
Theorem login_failure_is_generic
    (req : request) (st : hstate) (username password : string)
    (Hm : req_method req = POST)
    (Hu : form_get "username" (req_form req) = Some username)
    (Hp : form_get "password" (req_form req) = Some password)
    (Hfail : select_user_by_username (h_db st) username = None \/
             exists u, select_user_by_username (h_db st) username = Some u /\
                       check_password_hash (u_password_hash u) password = false) :
  login req st =
    (Render login_html,
     mk_hstate (h_db st) (h_session st)
               (h_flashes st ++ [("Invalid username or password", "error")])
               (h_trace st ++ [Connect; Execute SelectUserByUsername; Close])).
Proof.
  unfold login. rewrite Hm, Hu, Hp. run.
  replace (h_trace st ++ [Connect; Execute SelectUserByUsername; Close])
    with (((h_trace st ++ [Connect]) ++ [Execute SelectUserByUsername]) ++ [Close])
    by (rewrite <- !app_assoc; reflexivity).
  destruct Hfail as [Hnone | (u & Hsome & Hbad)].
  - rewrite Hnone. reflexivity.
  - rewrite Hsome, Hbad. reflexivity.
Qed.

(** *** Game statistics *)

Lemma json_eq_str_true (j : json) (s : string) :
  json_eq_str j s = true <-> j = JStr s.
Proof.
  destruct j; simpl; try (split; [discriminate | congruence]).
  rewrite String.eqb_eq. split; congruence.
Qed.

Lemma json_eq_str_false (j : json) (s : string) :
  json_eq_str j s = false <-> j <> JStr s.
Proof.
  rewrite <- json_eq_str_true. destruct (json_eq_str j s); split; congruence.
Qed.

Lemma dict_get_absent (key : string) (members : list (string * json)) :
  (forall kv, In kv members -> fst kv <> key) -> dict_get key members = JNull.
Proof.
  induction members as [|[k v] rest IH]; intros Habs; simpl; [reflexivity|].
  rewrite IH by (intros kv Hin; apply Habs; now right).
  assert (Hk : String.eqb k key = false).
  { apply String.eqb_neq. apply (Habs (k, v)). now left. }
  rewrite Hk. now destruct (existsb _ rest).
Qed.

Lemma select_stats_none (db : database) (user_id : Z) :
  select_stats db user_id = None <->
  existsb (fun g => g_user_id g =? user_id) (rows (game_stats db)) = false.
Proof.
  unfold select_stats. rewrite <- find_none_existsb.
  destruct (find _ _); simpl; split; congruence.
Qed.

Lemma find_map_same_key {A : Type} (p : A -> bool) (f : A -> A) (l : list A) :
  (forall a, p (f a) = p a) ->
  find p (map f l) = option_map f (find p l).
Proof.
  intros Hp. induction l as [|a l IH]; simpl; [reflexivity|].
  rewrite Hp. destruct (p a); [reflexivity | exact IH].
Qed.

Lemma select_stats_update (db : database) (wins losses ties user_id other : Z) :
  select_stats (update_stats db wins losses ties user_id) other =
    if other =? user_id
    then option_map (fun _ => (wins, losses, ties)) (select_stats db other)
    else select_stats db other.
Proof.
  unfold select_stats, update_stats. simpl.
  rewrite find_map_same_key.
  - destruct (find _ _) as [g|] eqn:Hf; simpl.
    + apply find_some in Hf. destruct Hf as [_ Hk]. apply Z.eqb_eq in Hk.
      rewrite Hk. destruct (other =? user_id); reflexivity.
    + now destruct (other =? user_id).
  - intros g. now destruct (g_user_id g =? user_id).
Qed.

Lemma insert_stats_fresh (db : database) (user_id wins losses ties : Z) :
  select_stats db user_id = None ->
  insert_stats db user_id wins losses ties =
    Some (mk_db (users db) (notes db)
                (append_row (fun i => mk_stats i user_id wins losses ties)
                            (game_stats db))).
Proof.
  intros H. apply select_stats_none in H. unfold insert_stats. now rewrite H.
Qed.

Lemma select_stats_append (db : database) (user_id wins losses ties other : Z) :
  select_stats (mk_db (users db) (notes db)
                      (append_row (fun i => mk_stats i user_id wins losses ties)
                                  (game_stats db))) other =
    match select_stats db other with
    | Some c => Some c
    | None => if user_id =? other then Some (wins, losses, ties) else None
    end.
Proof.
  unfold select_stats. simpl. rewrite find_app.
  destruct (find _ (rows (game_stats db))); simpl; [reflexivity|].
  now destruct (user_id =? other).
Qed.

(** What the handler does once past the session check. *)

Lemma update_game_stats_existing (req : request) (st : hstate) (user_id : Z)
    (members : list (string * json)) (stats : Z * Z * Z) :
  sess_user_id (h_session st) = Some user_id ->
  req_json req = Parsed (JObj members) ->
  select_stats (h_db st) user_id = Some stats ->
  fst (update_game_stats req st) = Json "success" 200 /\
  h_db (snd (update_game_stats req st)) =
    (let '(wins, losses, ties) := bump (dict_get "result" members) stats in
     update_stats (h_db st) wins losses ties user_id) /\
  h_session (snd (update_game_stats req st)) = h_session st.
Proof.
  intros Hs Hj Hrow. unfold update_game_stats. run. rewrite Hs, Hj. run.
  rewrite Hrow. destruct (bump _ stats) as [[wins losses] ties]. run. auto.
Qed.

Lemma update_game_stats_first (req : request) (st : hstate) (user_id : Z)
    (members : list (string * json)) :
  sess_user_id (h_session st) = Some user_id ->
  req_json req = Parsed (JObj members) ->
  select_stats (h_db st) user_id = None ->
  fst (update_game_stats req st) = Json "success" 200 /\
  h_db (snd (update_game_stats req st)) =
    (let '(wins, losses, ties) := first_counts (dict_get "result" members) in
     mk_db (users (h_db st)) (notes (h_db st))
           (append_row (fun i => mk_stats i user_id wins losses ties)
                       (game_stats (h_db st)))) /\
  h_session (snd (update_game_stats req st)) = h_session st.
Proof.
  intros Hs Hj Hrow. unfold update_game_stats. run. rewrite Hs, Hj. run.
  rewrite Hrow. destruct (first_counts _) as [[wins losses] ties]. run.
  rewrite (insert_stats_fresh _ _ _ _ _ Hrow). run. auto.
Qed.

Lemma report_existing (user_id : Z) (result : json) (db : database)
    (stats : Z * Z * Z) :
  select_stats db user_id = Some stats ->
  select_stats (report user_id result db) user_id = Some (bump result stats).
Proof.
  intros Hrow. unfold report.
  destruct (update_game_stats_existing (report_request result)
              (mk_hstate db (session_of user_id "") [] []) user_id
              [("result", result)] stats eq_refl eq_refl Hrow) as (_ & Hdb & _).
  change (dict_get "result" [("result", result)]) with result in Hdb.
  cbn [h_db] in Hdb, Hrow. rewrite Hdb.
  destruct (bump result stats) as [[wins losses] ties].
  rewrite select_stats_update, Z.eqb_refl. now rewrite Hrow.
Qed.

Lemma report_first (user_id : Z) (result : json) (db : database) :
  select_stats db user_id = None ->
  select_stats (report user_id result db) user_id = Some (first_counts result).
Proof.
  intros Hrow. unfold report.
  destruct (update_game_stats_first (report_request result)
              (mk_hstate db (session_of user_id "") [] []) user_id
              [("result", result)] eq_refl eq_refl Hrow) as (_ & Hdb & _).
  change (dict_get "result" [("result", result)]) with result in Hdb.
  cbn [h_db] in Hdb, Hrow. rewrite Hdb.
  destruct (first_counts result) as [[wins losses] ties].
  rewrite select_stats_append. now rewrite Hrow, Z.eqb_refl.
Qed.

(** C4.  An authenticated stats update on an account that has a
    [game_stats] row succeeds and adds one to the counter named by the
    result, leaving the other two as they were; a result that is none of
    ['win'], ['loss'], ['tie'] leaves all three as they were and still
    succeeds.  The rows of other accounts are not changed and no row is
    added.  Reporting win, win, loss for an account without a row gives
    wins=2, losses=1, ties=0. *)
Theorem stats_update_counts_result
    (req : request) (st : hstate) (user_id : Z)
    (members : list (string * json)) (wins losses ties : Z)
    (Hs : sess_user_id (h_session st) = Some user_id)
    (Hj : req_json req = Parsed (JObj members))
    (Hrow : select_stats (h_db st) user_id = Some (wins, losses, ties)) :
  let result := dict_get "result" members in
  let db' := h_db (snd (update_game_stats req st)) in
  fst (update_game_stats req st) = Json "success" 200 /\
  (result = JStr "win" ->
   select_stats db' user_id = Some (wins + 1, losses, ties)) /\
  (result = JStr "loss" ->
   select_stats db' user_id = Some (wins, losses + 1, ties)) /\
  (result = JStr "tie" ->
   select_stats db' user_id = Some (wins, losses, ties + 1)) /\
  (result <> JStr "win" -> result <> JStr "loss" -> result <> JStr "tie" ->
   select_stats db' user_id = Some (wins, losses, ties)) /\
  (forall other, other <> user_id ->
   select_stats db' other = select_stats (h_db st) other) /\
  List.length (rows (game_stats db')) = List.length (rows (game_stats (h_db st))) /\
  (forall (db : database) (u : Z),
     select_stats db u = None ->
     select_stats (report u (JStr "loss")
                     (report u (JStr "win") (report u (JStr "win") db))) u
     = Some (2, 1, 0)).
Proof.
  intros result db'.
  destruct (update_game_stats_existing req st user_id members (wins, losses, ties)
              Hs Hj Hrow) as (Hresp & Hdb & _).
  fold result in Hdb. fold db' in Hdb.
  assert (Hsel : select_stats db' user_id = Some (bump result (wins, losses, ties))).
  { rewrite Hdb. destruct (bump result (wins, losses, ties)) as [[w l] t].
    rewrite select_stats_update, Z.eqb_refl, Hrow. reflexivity. }
  split; [exact Hresp|].
  split; [intros E; rewrite Hsel, E; reflexivity|].
  split; [intros E; rewrite Hsel, E; reflexivity|].
  split; [intros E; rewrite Hsel, E; reflexivity|].
  split.
  { intros Hw Hl Ht. rewrite Hsel. unfold bump.
    apply json_eq_str_false in Hw, Hl, Ht. now rewrite Hw, Hl, Ht. }
  split.
  { intros other Hne. rewrite Hdb.
    destruct (bump result (wins, losses, ties)) as [[w l] t].
    rewrite select_stats_update.
    apply Z.eqb_neq in Hne. now rewrite Hne. }
  split.
  { rewrite Hdb. destruct (bump result (wins, losses, ties)) as [[w l] t].
    simpl. apply length_map. }
  intros db u Hnone.
  pose proof (report_first u (JStr "win") db Hnone) as H1.
  pose proof (report_existing u (JStr "win") _ _ H1) as H2.
  pose proof (report_existing u (JStr "loss") _ _ H2) as H3.
  rewrite H3. reflexivity.
Qed.

(** C5, as amended.  For an account without a [game_stats] row, a first
    report whose result is one of ['win'], ['loss'], ['tie'] succeeds and
    adds the account's row at the end of the table, with the counter named
    by the result at 1 and the other two at 0. *)
Theorem first_report_creates_row
    (req : request) (st : hstate) (user_id : Z)
    (members : list (string * json))
    (Hs : sess_user_id (h_session st) = Some user_id)
    (Hj : req_json req = Parsed (JObj members))
    (Hrow : select_stats (h_db st) user_id = None)
    (Hres : dict_get "result" members = JStr "win" \/
            dict_get "result" members = JStr "loss" \/
            dict_get "result" members = JStr "tie") :
  let result := dict_get "result" members in
  let db' := h_db (snd (update_game_stats req st)) in
  fst (update_game_stats req st) = Json "success" 200 /\
  (exists c, select_stats db' user_id = Some c /\ one_counted c /\
             (result = JStr "win" -> c = (1, 0, 0)) /\
             (result = JStr "loss" -> c = (0, 1, 0)) /\
             (result = JStr "tie" -> c = (0, 0, 1))) /\
  (exists g, rows (game_stats db') = rows (game_stats (h_db st)) ++ [g] /\
             g_user_id g = user_id).
Proof.
  intros result db'.
  destruct (update_game_stats_first req st user_id members Hs Hj Hrow)
    as (Hresp & Hdb & _).
  fold result in Hdb, Hres. fold db' in Hdb.
  split; [exact Hresp|]. split.
  - exists (first_counts result). rewrite Hdb.
    destruct (first_counts result) as [[w l] t] eqn:Hc.
    rewrite select_stats_append, Hrow, Z.eqb_refl.
    split; [reflexivity|]. rewrite <- Hc.
    destruct Hres as [E | [E | E]]; rewrite E; unfold one_counted;
      cbv [first_counts json_eq_str]; simpl;
      repeat split; auto; intros; congruence.
  - rewrite Hdb. destruct (first_counts result) as [[w l] t].
    simpl. eexists. split; reflexivity.
Qed.

(** C10.  For an account without a [game_stats] row, a report whose
    result is none of ['win'], ['loss'], ['tie'], or whose body has no
    [result] member, succeeds all the same and adds the account's row with
    wins=0, losses=0 and ties=0. *)
Theorem unknown_first_report_creates_zero_row
    (req : request) (st : hstate) (user_id : Z)
    (members : list (string * json))
    (Hs : sess_user_id (h_session st) = Some user_id)
    (Hj : req_json req = Parsed (JObj members))
    (Hrow : select_stats (h_db st) user_id = None)
    (Hres : (forall kv, In kv members -> fst kv <> "result") \/
            (dict_get "result" members <> JStr "win" /\
             dict_get "result" members <> JStr "loss" /\
             dict_get "result" members <> JStr "tie")) :
  let db' := h_db (snd (update_game_stats req st)) in
  fst (update_game_stats req st) = Json "success" 200 /\
  select_stats db' user_id = Some (0, 0, 0) /\
  rows (game_stats db') =
    rows (game_stats (h_db st)) ++
    [mk_stats (seq (game_stats (h_db st)) + 1) user_id 0 0 0].
Proof.
  intros db'.
  destruct (update_game_stats_first req st user_id members Hs Hj Hrow)
    as (Hresp & Hdb & _).
  fold db' in Hdb.
  assert (Hc : first_counts (dict_get "result" members) = (0, 0, 0)).
  { destruct Hres as [Habs | (Hw & Hl & Ht)].
    - rewrite (dict_get_absent _ _ Habs). reflexivity.
    - apply json_eq_str_false in Hw, Hl, Ht. unfold first_counts.
      now rewrite Hw, Hl, Ht. }
  rewrite Hc in Hdb. split; [exact Hresp|]. rewrite Hdb. split.
  - rewrite select_stats_append, Hrow, Z.eqb_refl. reflexivity.
  - reflexivity.
Qed.

(** *** The leaderboard *)

Lemma insert_desc_perm (r : string * Z) (l : list (string * Z)) :
  Permutation (insert_desc r l) (r :: l).
Proof.
  induction l as [|r' l IH]; simpl; [reflexivity|].
  destruct (snd r' <=? snd r); [reflexivity|].
  rewrite IH. apply perm_swap.
Qed.

Lemma order_by_wins_desc_perm (l : list (string * Z)) :
  Permutation (order_by_wins_desc l) l.
Proof.
  induction l as [|r l IH]; simpl; [reflexivity|].
  rewrite insert_desc_perm. now constructor.
Qed.

Lemma insert_desc_sorted (r : string * Z) (l : list (string * Z)) :
  StronglySorted ge_wins l -> StronglySorted ge_wins (insert_desc r l).
Proof.
  induction l as [|r' l IH]; intros Hs; simpl.
  - repeat constructor.
  - inversion Hs as [|? ? Hs' Hall]; subst.
    destruct (snd r' <=? snd r) eqn:E.
    + apply Z.leb_le in E. constructor; [exact Hs|].
      constructor; [unfold ge_wins; lia|].
      eapply Forall_impl; [|exact Hall]. unfold ge_wins. intros; lia.
    + apply Z.leb_gt in E. constructor; [now apply IH|].
      eapply Permutation_Forall.
      * symmetry. apply insert_desc_perm.
      * constructor; [unfold ge_wins; lia | exact Hall].
Qed.

Lemma order_by_wins_desc_sorted (l : list (string * Z)) :
  StronglySorted ge_wins (order_by_wins_desc l).
Proof.
  induction l as [|r l IH]; simpl; [constructor|].
  now apply insert_desc_sorted.
Qed.

Lemma strongly_sorted_firstn {A : Type} (R : A -> A -> Prop) (n : nat) (l : list A) :
  StronglySorted R l -> StronglySorted R (firstn n l).
Proof.
  revert l. induction n as [|n IH]; intros l Hs; simpl; [constructor|].
  destruct l as [|a l]; [constructor|].
  inversion Hs as [|? ? Hs' Hall]; subst. constructor; [now apply IH|].
  rewrite Forall_forall in *. intros x Hx. apply Hall.
  rewrite <- (firstn_skipn n l). apply in_or_app. now left.
Qed.

Lemma strongly_sorted_split {A : Type} (R : A -> A -> Prop) (n : nat) (l : list A) :
  StronglySorted R l ->
  forall a b, In a (firstn n l) -> In b (skipn n l) -> R a b.
Proof.
  revert l. induction n as [|n IH]; intros l Hs a b Ha Hb; simpl in *; [tauto|].
  destruct l as [|x l]; simpl in *; [tauto|].
  inversion Hs as [|? ? Hs' Hall]; subst.
  destruct Ha as [<- | Ha].
  - rewrite Forall_forall in Hall. apply Hall.
    rewrite <- (firstn_skipn n l). apply in_or_app. now right.
  - now apply (IH l).
Qed.

Lemma permutation_filter {A : Type} (f : A -> bool) (l l' : list A) :
  Permutation l l' -> Permutation (filter f l) (filter f l').
Proof.
  induction 1 as [|x l l' _ IH|x y l|l l' l'' _ IH1 _ IH2]; simpl.
  - constructor.
  - destruct (f x); [now constructor | exact IH].
  - destruct (f x), (f y); try reflexivity. apply perm_swap.
  - now rewrite IH1.
Qed.

Lemma map_snd_filter (f : Z -> bool) (l : list (string * Z)) :
  map snd (filter (fun r => f (snd r)) l) = filter f (map snd l).
Proof.
  induction l as [|r l IH]; simpl; [reflexivity|].
  destruct (f (snd r)); simpl; now rewrite IH.
Qed.

(** Two descending lists of integers with the same elements are equal. *)

Lemma descending_unique (l l' : list Z) :
  StronglySorted Z.ge l -> StronglySorted Z.ge l' -> Permutation l l' -> l = l'.
Proof.
  revert l'. induction l as [|a l IH]; intros l' Hs Hs' Hp.
  - apply Permutation_nil in Hp. now subst.
  - destruct l' as [|b l'].
    + symmetry in Hp. apply Permutation_nil in Hp. discriminate.
    + inversion Hs as [|? ? Hs1 Hall]; subst.
      inversion Hs' as [|? ? Hs1' Hall']; subst.
      assert (Hab : a = b).
      { rewrite Forall_forall in Hall, Hall'.
        assert (Ha : In a (b :: l')) by (apply (Permutation_in _ Hp); now left).
        assert (Hb : In b (a :: l))
          by (apply (Permutation_in _ (Permutation_sym Hp)); now left).
        destruct Ha as [Ha | Ha]; [congruence|].
        destruct Hb as [Hb | Hb]; [congruence|].
        apply Hall' in Ha. apply Hall in Hb. lia. }
      subst b. f_equal. apply IH; try assumption.
      eapply Permutation_cons_inv; exact Hp.
Qed.

Lemma strongly_sorted_map_snd (l : list (string * Z)) :
  StronglySorted ge_wins l -> StronglySorted Z.ge (map snd l).
Proof.
  induction 1 as [|r l _ IH Hall]; simpl; constructor; [exact IH|].
  rewrite Forall_forall in *. intros x Hx.
  apply in_map_iff in Hx. destruct Hx as (r' & <- & Hr'). now apply Hall.
Qed.

Lemma join_users_stats_in (db : database) (name : string) (wins : Z) :
  In (name, wins) (join_users_stats db) <->
  exists u g, In u (rows (users db)) /\ In g (rows (game_stats db)) /\
              u_id u = g_user_id g /\ u_username u = name /\ g_wins g = wins.
Proof.
  unfold join_users_stats. rewrite in_flat_map. split.
  - intros (u & Hu & Hin). apply in_map_iff in Hin.
    destruct Hin as (g & Heq & Hg). apply filter_In in Hg.
    destruct Hg as [Hg Hk]. apply Z.eqb_eq in Hk.
    exists u, g. inversion Heq. auto.
  - intros (u & g & Hu & Hg & Hk & Hn & Hw). exists u. split; [exact Hu|].
    apply in_map_iff. exists g. split; [now rewrite Hn, Hw|].
    apply filter_In. split; [exact Hg | now apply Z.eqb_eq].
Qed.

(** C6.  The leaderboard holds only (username, wins) pairs of accounts
    joined with their [game_stats] row whose win count is above zero; it is
    in descending order of wins; it has at most 5 entries, namely as many as
    there are such accounts when these are fewer; the accounts left out have
    no more wins than any account shown; and it is what the game page
    renders.  When the accounts' win counts are 5, 3, 3, 1 and 0 in any
    storage order, the leaderboard is the four accounts with wins above
    zero, with win counts 5, 3, 3, 1 in this order. *)
Theorem leaderboard_top_five (db : database) :
  let lb := select_leaderboard db in
  let qualifying := filter (fun r => 0 <? snd r) (join_users_stats db) in
  (forall name wins, In (name, wins) lb ->
     0 < wins /\
     exists u g, In u (rows (users db)) /\ In g (rows (game_stats db)) /\
                 u_id u = g_user_id g /\ u_username u = name /\ g_wins g = wins) /\
  descending lb /\
  (List.length lb <= 5)%nat /\
  List.length lb = Nat.min 5 (List.length qualifying) /\
  (exists rest, Permutation (lb ++ rest) qualifying /\
                forall r r', In r lb -> In r' rest -> snd r' <= snd r) /\
  (Permutation (map snd (join_users_stats db)) [5; 3; 3; 1; 0] ->
   map snd lb = [5; 3; 3; 1] /\ Permutation lb qualifying) /\
  (forall (st : hstate) (user_id : Z) (username : string),
     h_db st = db ->
     h_session st = session_of user_id username ->
     fst (tictactoe st) = Render (tictactoe_html username lb)).
Proof.
  intros lb qualifying.
  pose proof (order_by_wins_desc_sorted qualifying) as Hsorted.
  pose proof (order_by_wins_desc_perm qualifying) as Hperm.
  assert (Hsub : forall r, In r lb -> In r qualifying).
  { intros r Hr. apply (Permutation_in _ Hperm).
    unfold lb, select_leaderboard in Hr. fold qualifying in Hr.
    rewrite <- (firstn_skipn 5 (order_by_wins_desc qualifying)).
    apply in_or_app. now left. }
  split.
  { intros name wins Hin. apply Hsub in Hin. apply filter_In in Hin.
    destruct Hin as [Hj Hpos]. simpl in Hpos. apply Z.ltb_lt in Hpos.
    split; [exact Hpos | now apply join_users_stats_in]. }
  split.
  { apply StronglySorted_Sorted.
    now apply (strongly_sorted_firstn ge_wins 5). }
  split.
  { apply firstn_le_length. }
  split.
  { unfold lb, select_leaderboard. fold qualifying.
    rewrite length_firstn. now rewrite (Permutation_length Hperm). }
  split.
  { exists (skipn 5 (order_by_wins_desc qualifying)). split.
    - unfold lb, select_leaderboard. fold qualifying.
      now rewrite firstn_skipn.
    - intros r r' Hr Hr'.
      pose proof (strongly_sorted_split ge_wins 5 _ Hsorted r r' Hr Hr') as Hge.
      unfold ge_wins in Hge. lia. }
  split.
  { intros Hwins.
    assert (Hq : Permutation (map snd qualifying) [5; 3; 3; 1]).
    { unfold qualifying.
      rewrite (map_snd_filter (fun w => 0 <? w)).
      apply (permutation_filter (fun w => 0 <? w)) in Hwins. exact Hwins. }
    assert (Hkeys : map snd (order_by_wins_desc qualifying) = [5; 3; 3; 1]).
    { apply descending_unique.
      - now apply strongly_sorted_map_snd.
      - repeat constructor; lia.
      - rewrite <- Hq. now apply Permutation_map. }
    assert (Hlen : List.length (order_by_wins_desc qualifying) = 4%nat).
    { rewrite <- (length_map snd), Hkeys. reflexivity. }
    assert (Hall : lb = order_by_wins_desc qualifying).
    { unfold lb, select_leaderboard. fold qualifying.
      apply firstn_all2. lia. }
    rewrite Hall. split; assumption. }
  intros st user_id username Hdb Hsess.
  unfold tictactoe. run. rewrite Hsess. simpl. run. rewrite Hsess. simpl.
  now rewrite Hdb.
Qed.

(** *** The note *)

Lemma find_hd_filter {A : Type} (p : A -> bool) (l : list A) :
  find p l = hd_error (filter p l).
Proof.
  induction l as [|a l IH]; simpl; [reflexivity|].
  destruct (p a); [reflexivity | exact IH].
Qed.

Lemma select_note_hd (db : database) (user_id : Z) :
  select_note db user_id =
    option_map (fun n => (n_content n, n_last_updated n))
               (hd_error (notes_of db user_id)).
Proof. unfold select_note, notes_of. now rewrite find_hd_filter. Qed.

Lemma select_note_id_hd (db : database) (user_id : Z) :
  select_note_id db user_id = option_map n_id (hd_error (notes_of db user_id)).
Proof. unfold select_note_id, notes_of. now rewrite find_hd_filter. Qed.

Lemma notes_of_update (db : database) (now content : string) (user_id other : Z) :
  notes_of (update_note db now content user_id) other =
    if other =? user_id
    then map (fun n => mk_note (n_id n) (n_user_id n) content now)
             (notes_of db other)
    else notes_of db other.
Proof.
  unfold notes_of, update_note. simpl.
  induction (rows (notes db)) as [|n l IH]; simpl.
  - now destruct (other =? user_id).
  - destruct (n_user_id n =? user_id) eqn:E1; simpl.
    + apply Z.eqb_eq in E1. rewrite E1.
      destruct (user_id =? other) eqn:E2.
      * apply Z.eqb_eq in E2. subst other. rewrite Z.eqb_refl in *.
        simpl. now rewrite IH, E1.
      * rewrite IH. rewrite Z.eqb_sym in E2. now rewrite E2.
    + destruct (n_user_id n =? other) eqn:E2.
      * apply Z.eqb_eq in E2. subst other. rewrite E1 in *. simpl. now rewrite IH.
      * exact IH.
Qed.

Lemma notes_of_insert (db : database) (now content : string) (user_id other : Z) :
  notes_of (insert_note db now user_id content) other =
    notes_of db other ++
    (if user_id =? other
     then [mk_note (seq (notes db) + 1) user_id content now] else []).
Proof.
  unfold notes_of, insert_note. simpl. rewrite filter_app. simpl.
  now destruct (user_id =? other).
Qed.

(** The database a save leaves behind (lines 144-164). *)

Lemma notepad_post_db (env : environ) (req : request) (st : hstate)
    (user_id : Z) (content : string) :
  sess_user_id (h_session st) = Some user_id ->
  req_method req = POST ->
  form_get "notes" (req_form req) = Some content ->
  h_db (snd (notepad env req st)) =
    match select_note_id (h_db st) user_id with
    | Some _ => update_note (h_db st) (env_now env) content user_id
    | None => insert_note (h_db st) (env_now env) user_id content
    end /\
  h_session (snd (notepad env req st)) = h_session st.
Proof.
  intros Hs Hm Hf. unfold notepad, notepad_show. run. rewrite Hs. run.
  rewrite Hm, Hf. run.
  destruct (select_note_id (h_db st) user_id); run;
    destruct (sess_username (h_session st)); auto.
Qed.

Lemma save_single (user_id : Z) (db : database) (ec : environ * string) :
  (List.length (notes_of db user_id) <= 1)%nat ->
  exists i, notes_of (save user_id db ec) user_id =
            [mk_note i user_id (snd ec) (env_now (fst ec))].
Proof.
  intros Hle. unfold save.
  destruct (notepad_post_db (fst ec) (save_request (snd ec))
              (mk_hstate db (session_of user_id "") [] []) user_id (snd ec)
              eq_refl eq_refl eq_refl) as [Hdb _].
  rewrite Hdb. cbn [h_db]. rewrite select_note_id_hd.
  destruct (notes_of db user_id) as [|n [|n' l]] eqn:Hn; simpl in Hle; try lia.
  - simpl. rewrite notes_of_insert, Hn, Z.eqb_refl. simpl. eauto.
  - simpl. rewrite notes_of_update, Hn, Z.eqb_refl. simpl.
    assert (Hk : n_user_id n = user_id).
    { assert (Hin : In n (notes_of db user_id)) by (rewrite Hn; now left).
      apply filter_In in Hin. destruct Hin as [_ Hk]. now apply Z.eqb_eq. }
    rewrite Hk. eauto.
Qed.

(** Reading the note of an account that has none (lines 167-188). *)

Lemma notepad_get_empty (env : environ) (req : request) (st : hstate)
    (user_id : Z) (username : string) :
  h_session st = session_of user_id username ->
  req_method req = GET ->
  select_note (h_db st) user_id = None ->
  notepad env req st =
    (Render (notepad_html username "" None),
     mk_hstate (h_db st) (h_session st) (h_flashes st)
               (((h_trace st ++ [Connect]) ++ [Execute SelectNote]) ++ [Close])).
Proof.
  intros Hs Hm Hnone. unfold notepad, notepad_show. run.
  rewrite Hs, Hm. simpl. run. rewrite Hnone, Hs. reflexivity.
Qed.

(** *** One request, one step of the database *)

Lemma login_effect (req : request) (st : hstate) :
  h_db (snd (login req st)) = h_db st /\
  (h_session (snd (login req st)) = h_session st \/
   exists u, In u (rows (users (h_db st))) /\
             h_session (snd (login req st)) = session_of (u_id u) (u_username u)).
Proof.
  unfold login.
  destruct (req_method req); [run; auto|].
  destruct (form_get "username" (req_form req)) as [username|]; [|run; auto].
  destruct (form_get "password" (req_form req)) as [password|]; [|run; auto].
  run.
  destruct (select_user_by_username (h_db st) username) as [u|] eqn:Hsel;
    [|run; auto].
  destruct (check_password_hash (u_password_hash u) password); run; [|auto].
  split; [reflexivity|]. right. exists u. split; [|reflexivity].
  apply find_some in Hsel. tauto.
Qed.

Lemma register_effect (env : environ) (req : request) (st : hstate) :
  db_step (h_session st) (h_db st) (h_db (snd (register env req st))) /\
  h_session (snd (register env req st)) = h_session st.
Proof.
  unfold register.
  destruct (req_method req); [run; split; [constructor | reflexivity]|].
  destruct (form_get "username" (req_form req)) as [username|];
    [|run; split; [constructor | reflexivity]].
  destruct (form_get "email" (req_form req)) as [email|];
    [|run; split; [constructor | reflexivity]].
  destruct (form_get "password" (req_form req)) as [password|];
    [|run; split; [constructor | reflexivity]].
  run.
  destruct (select_user_by_username (h_db st) username);
    [run; split; [constructor | reflexivity]|].
  run.
  destruct (insert_user (h_db st) (env_now env) username email _) as [db'|] eqn:Hins;
    run; split; try reflexivity; [|constructor].
  eapply ds_register. exact Hins.
Qed.

Lemma notepad_effect (env : environ) (req : request) (st : hstate) :
  db_step (h_session st) (h_db st) (h_db (snd (notepad env req st))) /\
  h_session (snd (notepad env req st)) = h_session st.
Proof.
  unfold notepad, notepad_show. run.
  destruct (sess_user_id (h_session st)) as [user_id|] eqn:Hs;
    [|run; split; [constructor | reflexivity]].
  run. destruct (req_method req).
  - run. destruct (sess_username (h_session st)); split; try reflexivity; constructor.
  - destruct (form_get "notes" (req_form req)) as [content|];
      [|run; split; [constructor | reflexivity]].
    run. destruct (select_note_id (h_db st) user_id) eqn:Hsel; run;
      destruct (sess_username (h_session st)); split; try reflexivity;
      solve [ now apply ds_note_update with (user_id := user_id)
            | now apply ds_note_insert ].
Qed.

Lemma update_game_stats_effect (req : request) (st : hstate) :
  db_step (h_session st) (h_db st) (h_db (snd (update_game_stats req st))) /\
  h_session (snd (update_game_stats req st)) = h_session st.
Proof.
  unfold update_game_stats. run.
  destruct (sess_user_id (h_session st)) as [user_id|] eqn:Hs;
    [|split; [constructor | reflexivity]].
  destruct (req_json req) as [| |j]; try (split; [constructor | reflexivity]).
  destruct j; try (split; [constructor | reflexivity]).
  run. destruct (select_stats (h_db st) user_id) as [stats|] eqn:Hsel.
  - destruct (bump _ stats) as [[wins losses] ties] eqn:Hb. run.
    split; [|reflexivity]. eapply ds_stats_update; eassumption.
  - destruct (first_counts _) as [[wins losses] ties] eqn:Hc. run.
    destruct (insert_stats (h_db st) user_id wins losses ties) as [db'|] eqn:Hins;
      run; split; try reflexivity; [|constructor].
    eapply ds_stats_insert; eassumption.
Qed.

Lemma session_only_effect (h : M response) (st : hstate) :
  h = landing \/ h = dashboard \/ h = tictactoe \/ h = wordgame \/ h = logout ->
  h_db (snd (h st)) = h_db st /\
  (h_session (snd (h st)) = h_session st \/
   h_session (snd (h st)) = empty_session).
Proof.
  intros [-> | [-> | [-> | [-> | ->]]]];
    [unfold landing | unfold dashboard | unfold tictactoe | unfold wordgame
     | unfold logout]; run; auto;
    destruct (sess_user_id (h_session st)); run; auto;
    destruct (sess_username (h_session st)); auto.
Qed.

Lemma handle_effect (env : environ) (req : request) (st : hstate) :
  db_step (h_session st) (h_db st) (h_db (snd (handle env req st))) /\
  (h_session (snd (handle env req st)) = h_session st \/
   h_session (snd (handle env req st)) = empty_session \/
   exists u, In u (rows (users (h_db st))) /\
             h_session (snd (handle env req st)) =
             session_of (u_id u) (u_username u)).
Proof.
  assert (Hso : forall h : M response,
            h = landing \/ h = dashboard \/ h = tictactoe \/ h = wordgame \/
            h = logout ->
            db_step (h_session st) (h_db st) (h_db (snd (h st))) /\
            (h_session (snd (h st)) = h_session st \/
             h_session (snd (h st)) = empty_session \/
             exists u, In u (rows (users (h_db st))) /\
                       h_session (snd (h st)) = session_of (u_id u) (u_username u))).
  { intros h Hh. destruct (session_only_effect h st Hh) as [Hdb Hsess].
    rewrite Hdb. split; [constructor | tauto]. }
  assert (Hlogin : db_step (h_session st) (h_db st) (h_db (snd (login req st))) /\
            (h_session (snd (login req st)) = h_session st \/
             h_session (snd (login req st)) = empty_session \/
             exists u, In u (rows (users (h_db st))) /\
                       h_session (snd (login req st)) =
                       session_of (u_id u) (u_username u))).
  { destruct (login_effect req st) as [Hdb Hsess]. rewrite Hdb.
    split; [constructor | tauto]. }
  pose proof (register_effect env req st) as Hreg.
  pose proof (notepad_effect env req st) as Hnote.
  pose proof (update_game_stats_effect req st) as Hupd.
  unfold handle.
  destruct (req_route req), (req_method req);
    try (apply Hso; tauto);
    try exact Hlogin;
    try (split; [apply Hreg | left; apply Hreg]);
    try (split; [apply Hnote | left; apply Hnote]);
    try (split; [apply Hupd | left; apply Hupd]);
    (split; [constructor | left; reflexivity]).
Qed.

(** *** Invariants of [game_stats] *)

Lemma insert_user_some (db db' : database) (now username email pwhash : string) :
  insert_user db now username email pwhash = Some db' ->
  db' = mk_db (append_row (fun i => mk_user i username email pwhash now) (users db))
              (notes db) (game_stats db).
Proof.
  unfold insert_user. destruct (_ || _); [discriminate | congruence].
Qed.

Lemma init_db_tables (env : environ) (db : database) :
  notes (init_db env db) = notes db /\
  game_stats (init_db env db) = game_stats db /\
  seq (users db) <= seq (users (init_db env db)) /\
  (forall u, In u (rows (users db)) -> In u (rows (users (init_db env db)))) /\
  (forall u, In u (rows (users (init_db env db))) ->
             In u (rows (users db)) \/ u_id u = seq (users db) + 1 /\
                                       seq (users (init_db env db)) = seq (users db) + 1).
Proof.
  unfold init_db, insert_or_ignore_user.
  destruct (insert_user db _ _ _ _) as [db'|] eqn:Hins.
  - apply insert_user_some in Hins. subst db'. simpl.
    repeat split; try lia.
    + intros u Hu. apply in_or_app. now left.
    + intros u Hu. apply in_app_or in Hu. destruct Hu as [Hu | [<- | []]]; auto.
  - repeat split; auto; lia.
Qed.

Lemma bump_ge (result : json) (wins losses ties wins' losses' ties' : Z) :
  bump result (wins, losses, ties) = (wins', losses', ties') ->
  wins <= wins' /\ losses <= losses' /\ ties <= ties'.
Proof.
  unfold bump.
  destruct (json_eq_str result "win"); [|destruct (json_eq_str result "loss");
    [|destruct (json_eq_str result "tie")]];
    intros E; inversion E; subst; lia.
Qed.

Lemma first_counts_ge (result : json) (wins losses ties : Z) :
  first_counts result = (wins, losses, ties) ->
  0 <= wins /\ 0 <= losses /\ 0 <= ties.
Proof.
  unfold first_counts. intros E. inversion E.
  destruct (json_eq_str result "win"), (json_eq_str result "loss"),
    (json_eq_str result "tie"); lia.
Qed.

Lemma nodup_map_inj {A B : Type} (f : A -> B) (l : list A) (a b : A) :
  NoDup (map f l) -> In a l -> In b l -> f a = f b -> a = b.
Proof.
  induction l as [|x l IH]; simpl; intros Hnd Ha Hb Hf; [tauto|].
  inversion Hnd as [|? ? Hnotin Hnd']; subst.
  destruct Ha as [-> | Ha], Hb as [-> | Hb]; auto.
  - exfalso. apply Hnotin. rewrite Hf. now apply in_map.
  - exfalso. apply Hnotin. rewrite <- Hf. now apply in_map.
Qed.

Lemma stats_le_refl (db db' : database) :
  game_stats db' = game_stats db -> stats_le db db'.
Proof.
  intros E g Hg. exists g. rewrite E. repeat split; auto; lia.
Qed.

Lemma stats_inv_same (db db' : database) :
  game_stats db' = game_stats db -> stats_inv db -> stats_inv db'.
Proof. unfold stats_inv. now intros ->. Qed.

Lemma db_step_stats (s : session) (db db' : database) :
  db_step s db db' -> stats_inv db -> stats_inv db' /\ stats_le db db'.
Proof.
  intros Hstep [Hnd Hpos].
  destruct Hstep as [db | db db' now username email pwhash Hins
                    | db user_id now content Hs
                    | db user_id now content Hs Hnone
                    | db user_id result stats wins losses ties Hs Hsel Hb
                    | db db' user_id result wins losses ties Hs Hc Hins].
  - split; [now split | now apply stats_le_refl].
  - apply insert_user_some in Hins. subst db'.
    split; [now split | now apply stats_le_refl].
  - split; [now split | now apply stats_le_refl].
  - split; [now split | now apply stats_le_refl].
  - unfold select_stats in Hsel.
    destruct (find _ _) as [g0|] eqn:Hfind; [|discriminate].
    apply find_some in Hfind. destruct Hfind as [Hin0 Hk0].
    apply Z.eqb_eq in Hk0. simpl in Hsel. inversion Hsel; subst stats; clear Hsel.
    apply bump_ge in Hb.
    rewrite Forall_forall in Hpos. pose proof (Hpos g0 Hin0) as Hg0.
    split; [split|].
    + simpl. rewrite map_map.
      erewrite map_ext; [exact Hnd|].
      intros g. now destruct (g_user_id g =? user_id).
    + simpl. rewrite Forall_forall. intros g' Hg'.
      apply in_map_iff in Hg'. destruct Hg' as (g & <- & Hg).
      destruct (g_user_id g =? user_id); [simpl; lia | now apply Hpos].
    + intros g Hg. simpl.
      exists (if g_user_id g =? user_id
              then mk_stats (g_id g) (g_user_id g) wins losses ties else g).
      split; [apply in_map_iff; now exists g|].
      destruct (g_user_id g =? user_id) eqn:E; simpl.
      * apply Z.eqb_eq in E.
        assert (g = g0) by (apply (nodup_map_inj g_user_id _ g g0 Hnd Hg Hin0);
                            congruence).
        subst g. repeat split; lia.
      * repeat split; lia.
  - unfold insert_stats in Hins.
    destruct (existsb _ _) eqn:Hex; [discriminate|].
    inversion Hins; subst db'; clear Hins.
    apply first_counts_ge in Hc.
    split; [split|].
    + simpl. rewrite map_app. simpl.
      eapply Permutation_NoDup; [apply Permutation_cons_append|].
      constructor; [|exact Hnd].
      intros Hin. apply in_map_iff in Hin. destruct Hin as (g & Hk & Hg).
      assert (Ht : existsb (fun g => g_user_id g =? user_id)
                           (rows (game_stats db)) = true).
      { apply existsb_exists. exists g. split; [exact Hg | now apply Z.eqb_eq]. }
      congruence.
    + simpl. apply Forall_app. split; [exact Hpos|].
      constructor; [simpl; lia | constructor].
    + intros g Hg. exists g. simpl.
      split; [apply in_or_app; now left | repeat split; lia].
Qed.

(** C8.  Every operation on the store, a request on any route under any
    session or a start of the process, keeps the invariants of
    [game_stats]: no account has two rows, no counter is negative, and
    every row that was there is still there with each of its three counters
    at least what it was.  The invariants hold on the empty file, hence in
    every state the application can reach. *)
Theorem game_stats_invariants_preserved
    (op : operation) (db : database) (Hinv : stats_inv db) :
  (stats_inv (perform op db) /\ stats_le db (perform op db)) /\
  stats_inv empty_db /\
  (forall sys, reachable sys -> stats_inv (sys_db sys)).
Proof.
  assert (Hop : forall op' d, stats_inv d ->
                  stats_inv (perform op' d) /\ stats_le d (perform op' d)).
  { intros [env req s | env] d Hd; simpl.
    - unfold serve.
      destruct (handle_effect env req (mk_hstate d s [] [])) as [Hstep _].
      exact (db_step_stats _ _ _ Hstep Hd).
    - destruct (init_db_tables env d) as (_ & Hg & _).
      split; [now apply (stats_inv_same d) | now apply stats_le_refl]. }
  assert (Hempty : stats_inv empty_db).
  { split; simpl; constructor. }
  split; [now apply Hop|]. split; [exact Hempty|].
  intros sys Hreach. induction Hreach as [env | sys sys' _ IH Hstep].
  - apply (Hop (Startup env) empty_db Hempty).
  - destruct Hstep as [env req s sys _ | env sys]; simpl.
    + apply (Hop (Request env req s) (sys_db sys) IH).
    + apply (Hop (Startup env) (sys_db sys) IH).
Qed.

(** *** Invariants of the running application *)

Lemma notes_of_same (db db' : database) (user_id : Z) :
  notes db' = notes db -> notes_of db' user_id = notes_of db user_id.
Proof. unfold notes_of. now intros ->. Qed.

Lemma db_step_notes_inv (s : session) (db db' : database) :
  db_step s db db' -> notes_inv db -> notes_inv db'.
Proof.
  intros Hstep Hinv other.
  destruct Hstep as [db | db db' now username email pwhash Hins
                    | db user_id now content Hs
                    | db user_id now content Hs Hnone
                    | db user_id result stats wins losses ties Hs Hsel Hb
                    | db db' user_id result wins losses ties Hs Hc Hins].
  - apply Hinv.
  - apply insert_user_some in Hins. subst db'.
    rewrite (notes_of_same db) by reflexivity. apply Hinv.
  - rewrite notes_of_update.
    destruct (other =? user_id); [rewrite length_map|]; apply Hinv.
  - rewrite notes_of_insert. rewrite length_app.
    destruct (user_id =? other) eqn:E; simpl.
    + apply Z.eqb_eq in E. subst other.
      rewrite select_note_id_hd in Hnone.
      destruct (notes_of db user_id); [simpl; lia | discriminate].
    + specialize (Hinv other). lia.
  - rewrite (notes_of_same db) by reflexivity. apply Hinv.
  - unfold insert_stats in Hins. destruct (existsb _ _); [discriminate|].
    inversion Hins; subst db'.
    rewrite (notes_of_same db) by reflexivity. apply Hinv.
Qed.

Lemma db_step_refs (s : session) (db db' : database) :
  db_step s db db' -> refs_bounded db -> session_bounded db s ->
  refs_bounded db' /\ seq (users db) <= seq (users db').
Proof.
  intros Hstep (Hu & Hn & Hg) Hsb.
  destruct Hstep as [db | db db' now username email pwhash Hins
                    | db user_id now content Hs
                    | db user_id now content Hs Hnone
                    | db user_id result stats wins losses ties Hs Hsel Hb
                    | db db' user_id result wins losses ties Hs Hc Hins].
  - split; [repeat split; assumption | lia].
  - apply insert_user_some in Hins. subst db'. unfold refs_bounded. simpl.
    split; [|lia]. repeat split.
    + intros u Hin. apply in_app_or in Hin.
      destruct Hin as [Hin | [<- | []]]; [apply Hu in Hin; lia | simpl; lia].
    + intros n Hin. apply Hn in Hin. lia.
    + intros g Hin. apply Hg in Hin. lia.
  - unfold refs_bounded. simpl. split; [|lia]. repeat split; try assumption.
    intros n Hin. apply in_map_iff in Hin. destruct Hin as (n0 & <- & Hin).
    destruct (n_user_id n0 =? user_id); [simpl|]; now apply Hn.
  - unfold refs_bounded. simpl. split; [|lia]. repeat split; try assumption.
    intros n Hin. apply in_app_or in Hin.
    destruct Hin as [Hin | [<- | []]]; [now apply Hn | simpl; now apply Hsb].
  - unfold refs_bounded. simpl. split; [|lia]. repeat split; try assumption.
    intros g Hin. apply in_map_iff in Hin. destruct Hin as (g0 & <- & Hin).
    destruct (g_user_id g0 =? user_id); [simpl|]; now apply Hg.
  - unfold insert_stats in Hins. destruct (existsb _ _); [discriminate|].
    inversion Hins; subst db'. unfold refs_bounded. simpl.
    split; [|lia]. repeat split; try assumption.
    intros g Hin. apply in_app_or in Hin.
    destruct Hin as [Hin | [<- | []]]; [now apply Hg | simpl; now apply Hsb].
Qed.

Lemma session_bounded_mono (db db' : database) (s : session) :
  seq (users db) <= seq (users db') ->
  session_bounded db s -> session_bounded db' s.
Proof.
  intros Hle Hsb user_id Hs. apply Hsb in Hs. lia.
Qed.

Lemma reachable_inv (sys : system) : reachable sys -> sys_inv sys.
Proof.
  induction 1 as [env | sys sys' _ IH Hstep].
  - destruct (init_db_tables env empty_db) as (Hn & Hg & Hseq & _ & Hnew).
    unfold sys_inv, refs_bounded, notes_inv, notes_of, stats_inv.
    cbn [sys_db sys_cookies]. rewrite Hn, Hg. simpl.
    repeat split; try constructor; try (intros; simpl; lia); try tauto.
    intros u Hin. apply Hnew in Hin. simpl in Hin.
    destruct Hin as [[] | [Hid Hs]]. simpl in Hseq. lia.
  - destruct IH as (Hrefs & Hnotes & Hstats & Hcookies).
    destruct Hstep as [env req s sys Hs | env sys]; unfold sys_inv; simpl.
    + set (st := mk_hstate (sys_db sys) s [] []).
      assert (Hsb : session_bounded (sys_db sys) s).
      { destruct Hs as [-> | Hin]; [intros u Hu; discriminate|].
        rewrite Forall_forall in Hcookies. now apply Hcookies. }
      destruct (handle_effect env req st) as [Hdb Hsess]. simpl in Hdb, Hsess.
      destruct (db_step_refs _ _ _ Hdb Hrefs Hsb) as [Hrefs' Hseq].
      unfold serve. fold st.
      split; [exact Hrefs'|].
      split; [exact (db_step_notes_inv _ _ _ Hdb Hnotes)|].
      split; [exact (proj1 (db_step_stats _ _ _ Hdb Hstats))|].
      constructor.
      * destruct Hsess as [-> | [-> | (u & Hu & ->)]].
        -- now apply (session_bounded_mono (sys_db sys)).
        -- intros u Hu. discriminate.
        -- intros uid Huid. simpl in Huid. inversion Huid; subst uid.
           destruct Hrefs as (Hub & _). apply Hub in Hu. lia.
      * eapply Forall_impl; [|exact Hcookies].
        intros c. now apply session_bounded_mono.
    + destruct (init_db_tables env (sys_db sys)) as (Hn & Hg & Hseq & _ & Hnew).
      destruct Hrefs as (Hu & Hnb & Hgb).
      split; [|split; [|split]].
      * unfold refs_bounded. rewrite Hn, Hg. repeat split.
        -- intros u Hin. apply Hnew in Hin.
           destruct Hin as [Hin | [Hid Hs]]; [apply Hu in Hin; lia | lia].
        -- intros n Hin. apply Hnb in Hin. lia.
        -- intros g Hin. apply Hgb in Hin. lia.
      * intros u. rewrite (notes_of_same (sys_db sys)) by exact Hn. apply Hnotes.
      * now apply (stats_inv_same (sys_db sys)).
      * eapply Forall_impl; [|exact Hcookies].
        intros c. now apply session_bounded_mono.
Qed.

(** C7.  Saving the note is an upsert.  If the account has a row in
    [notes], the save rewrites the content and the timestamp of that row in
    place; otherwise it adds one row.  No other account's rows, and no
    other table, are changed.  When every account has at most one row
    before, the same holds after, and this is so in every state the
    application can reach.  After any non-empty sequence of saves by one
    account that has at most one row, the account has exactly one row,
    holding the content and the time of the last save. *)
Theorem note_save_is_upsert
    (env : environ) (req : request) (st : hstate)
    (user_id : Z) (content : string)
    (Hs : sess_user_id (h_session st) = Some user_id)
    (Hm : req_method req = POST)
    (Hf : form_get "notes" (req_form req) = Some content) :
  let db := h_db st in
  let db' := h_db (snd (notepad env req st)) in
  (forall i, select_note_id db user_id = Some i ->
     rows (notes db') =
       map (fun n => if n_user_id n =? user_id
                     then mk_note (n_id n) (n_user_id n) content (env_now env)
                     else n)
           (rows (notes db)) /\
     select_note db' user_id = Some (content, env_now env)) /\
  (select_note_id db user_id = None ->
     rows (notes db') =
       rows (notes db) ++ [mk_note (seq (notes db) + 1) user_id content (env_now env)] /\
     select_note db' user_id = Some (content, env_now env)) /\
  (forall other, other <> user_id -> notes_of db' other = notes_of db other) /\
  users db' = users db /\ game_stats db' = game_stats db /\
  (notes_inv db -> notes_inv db') /\
  (forall sys, reachable sys -> notes_inv (sys_db sys)) /\
  (forall (db0 : database) (saves : list (environ * string))
          (last : environ * string),
     (List.length (notes_of db0 user_id) <= 1)%nat ->
     let dbn := fold_left (save user_id) (saves ++ [last]) db0 in
     (exists i, notes_of dbn user_id =
                [mk_note i user_id (snd last) (env_now (fst last))]) /\
     select_note dbn user_id = Some (snd last, env_now (fst last))).
Proof.
  intros db db'.
  destruct (notepad_post_db env req st user_id content Hs Hm Hf) as [Hdb _].
  fold db db' in Hdb.
  assert (Hother : forall other, other <> user_id ->
                     notes_of db' other = notes_of db other).
  { intros other Hne. rewrite Hdb. destruct (select_note_id db user_id).
    - rewrite notes_of_update. apply Z.eqb_neq in Hne. now rewrite Hne.
    - rewrite notes_of_insert.
      assert (E : (user_id =? other) = false) by (apply Z.eqb_neq; congruence).
      rewrite E. apply app_nil_r. }
  split.
  { intros i Hi. rewrite Hdb, Hi. split; [reflexivity|].
    rewrite select_note_hd, notes_of_update, Z.eqb_refl.
    rewrite select_note_id_hd in Hi.
    destruct (notes_of db user_id); [discriminate | reflexivity]. }
  split.
  { intros Hnone. rewrite Hdb, Hnone. split; [reflexivity|].
    rewrite select_note_hd, notes_of_insert, Z.eqb_refl.
    rewrite select_note_id_hd in Hnone.
    destruct (notes_of db user_id); [reflexivity | discriminate]. }
  split; [exact Hother|].
  split; [rewrite Hdb; now destruct (select_note_id db user_id)|].
  split; [rewrite Hdb; now destruct (select_note_id db user_id)|].
  split.
  { intros Hinv other. destruct (Z.eq_dec other user_id) as [-> | Hne].
    - rewrite Hdb, select_note_id_hd. specialize (Hinv user_id).
      destruct (notes_of db user_id) as [|n l] eqn:Hn; simpl.
      + rewrite notes_of_insert, Hn, Z.eqb_refl. simpl. lia.
      + rewrite notes_of_update, Hn, Z.eqb_refl, length_map. exact Hinv.
    - rewrite (Hother other Hne). apply Hinv. }
  split; [intros sys Hreach; apply (reachable_inv sys Hreach)|].
  intros db0 saves last Hle dbn.
  assert (Hkeep : forall l d, (List.length (notes_of d user_id) <= 1)%nat ->
            (List.length (notes_of (fold_left (save user_id) l d) user_id) <= 1)%nat).
  { induction l as [|ec l IH]; intros d Hd; simpl; [exact Hd|].
    apply IH. destruct (save_single user_id d ec Hd) as [i Hi].
    rewrite Hi. simpl. lia. }
  unfold dbn. rewrite fold_left_app. simpl.
  destruct (save_single user_id (fold_left (save user_id) saves db0) last
              (Hkeep saves db0 Hle)) as [i Hi].
  split; [now exists i|].
  rewrite select_note_hd, Hi. reflexivity.
Qed.

Lemma register_redirect_inv (env : environ) (req : request) (st : hstate) :
  fst (register env req st) = Redirect ep_login ->
  exists username email password,
    insert_user (h_db st) (env_now env) username email
                (generate_password_hash (env_salt env) password)
    = Some (h_db (snd (register env req st))).
Proof.
  unfold register.
  destruct (req_method req); [run; discriminate|].
  destruct (form_get "username" (req_form req)) as [username|]; [|run; discriminate].
  destruct (form_get "email" (req_form req)) as [email|]; [|run; discriminate].
  destruct (form_get "password" (req_form req)) as [password|]; [|run; discriminate].
  run.
  destruct (select_user_by_username (h_db st) username); [run; discriminate|].
  run.
  destruct (insert_user (h_db st) (env_now env) username email _) as [db'|] eqn:Hins;
    run; [|discriminate].
  intros _. now exists username, email, password.
Qed.

Lemma handle_register (env : environ) (req : request) :
  req_route req = r_register -> handle env req = register env req.
Proof.
  unfold handle. intros ->. now destruct (req_method req).
Qed.

(** C9.  Reading the note of an account that has no row in [notes]
    shows empty content and no timestamp, and writes nothing.  An account
    that has just been registered is such an account: in every state the
    application can reach, a registration that succeeds adds an account
    that has no row in [notes] and none in [game_stats]. *)
Theorem note_of_account_without_row_is_empty
    (env : environ) (req : request) (st : hstate)
    (user_id : Z) (username : string)
    (Hs : h_session st = session_of user_id username)
    (Hm : req_method req = GET)
    (Hnone : notes_of (h_db st) user_id = []) :
  notepad env req st =
    (Render (notepad_html username "" None),
     mk_hstate (h_db st) (h_session st) (h_flashes st)
               (h_trace st ++ [Connect; Execute SelectNote; Close])) /\
  (forall (sys : system) (env' : environ) (req' : request) (s : session),
     reachable sys ->
     s = empty_session \/ In s (sys_cookies sys) ->
     req_route req' = r_register ->
     fst (serve env' req' (sys_db sys) s) = Redirect ep_login ->
     let db' := h_db (snd (serve env' req' (sys_db sys) s)) in
     exists u, rows (users db') = rows (users (sys_db sys)) ++ [u] /\
               notes_of db' (u_id u) = [] /\
               stats_of db' (u_id u) = [] /\
               select_note db' (u_id u) = None /\
               select_stats db' (u_id u) = None).
Proof.
  split.
  - assert (Hsel : select_note (h_db st) user_id = None)
      by (rewrite select_note_hd, Hnone; reflexivity).
    rewrite (notepad_get_empty env req st user_id username Hs Hm Hsel).
    rewrite <- !app_assoc. reflexivity.
  - intros sys env' req' s Hreach _ Hroute Hresp db'.
    apply reachable_inv in Hreach. destruct Hreach as ((_ & Hnb & Hgb) & _).
    unfold serve in Hresp, db'.
    rewrite (handle_register env' req' Hroute) in Hresp.
    assert (Hreg : exists username email password,
               insert_user (sys_db sys) (env_now env') username email
                           (generate_password_hash (env_salt env') password)
               = Some db').
    { unfold db'. rewrite (handle_register env' req' Hroute).
      apply (register_redirect_inv env' req'
               (mk_hstate (sys_db sys) s [] [])); exact Hresp. }
    destruct Hreg as (username' & email & password & Hins).
    apply insert_user_some in Hins.
    exists (mk_user (seq (users (sys_db sys)) + 1) username' email
                    (generate_password_hash (env_salt env') password)
                    (env_now env')).
    rewrite Hins. cbn [u_id].
    assert (Hn : notes_of (mk_db (append_row
                   (fun i => mk_user i username' email
                      (generate_password_hash (env_salt env') password)
                      (env_now env')) (users (sys_db sys)))
                   (notes (sys_db sys)) (game_stats (sys_db sys)))
                   (seq (users (sys_db sys)) + 1) = []).
    { unfold notes_of. simpl.
      induction (rows (notes (sys_db sys))) as [|n l IH]; simpl; [reflexivity|].
      assert (Hle : n_user_id n <= seq (users (sys_db sys)))
        by (apply Hnb; now left).
      assert (E : (n_user_id n =? seq (users (sys_db sys)) + 1) = false)
        by (apply Z.eqb_neq; lia).
      rewrite E. apply IH. intros n' Hin. apply Hnb. now right. }
    assert (Hg : stats_of (mk_db (append_row
                   (fun i => mk_user i username' email
                      (generate_password_hash (env_salt env') password)
                      (env_now env')) (users (sys_db sys)))
                   (notes (sys_db sys)) (game_stats (sys_db sys)))
                   (seq (users (sys_db sys)) + 1) = []).
    { unfold stats_of. simpl.
      induction (rows (game_stats (sys_db sys))) as [|g l IH]; simpl; [reflexivity|].
      assert (Hle : g_user_id g <= seq (users (sys_db sys)))
        by (apply Hgb; now left).
      assert (E : (g_user_id g =? seq (users (sys_db sys)) + 1) = false)
        by (apply Z.eqb_neq; lia).
      rewrite E. apply IH. intros g' Hin. apply Hgb. now right. }
    split; [reflexivity|]. split; [exact Hn|]. split; [exact Hg|].
    split.
    + rewrite select_note_hd, Hn. reflexivity.
    + unfold select_stats. rewrite find_hd_filter.
      unfold stats_of in Hg. simpl in Hg |- *. now rewrite Hg.
Qed.

(** *** Logging in and out *)

Lemma login_matched (req : request) (st : hstate) (username password : string)
    (u : user_row) :
  req_method req = POST ->
  form_get "username" (req_form req) = Some username ->
  form_get "password" (req_form req) = Some password ->
  select_user_by_username (h_db st) username = Some u ->
  check_password_hash (u_password_hash u) password = true ->
  login req st =
    (Redirect ep_dashboard,
     mk_hstate (h_db st) (session_of (u_id u) (u_username u))
               (h_flashes st ++ [("Login successful!", "success")])
               (((h_trace st ++ [Connect]) ++ [Execute SelectUserByUsername])
                ++ [Close])).
Proof.
  intros Hm Hu Hp Hsel Hok. unfold login. rewrite Hm, Hu, Hp. run.
  rewrite Hsel, Hok. reflexivity.
Qed.

Lemma login_unmatched (req : request) (st : hstate) (username password : string) :
  req_method req = POST ->
  form_get "username" (req_form req) = Some username ->
  form_get "password" (req_form req) = Some password ->
  (forall u, select_user_by_username (h_db st) username = Some u ->
             check_password_hash (u_password_hash u) password = false) ->
  fst (login req st) = Render login_html.
Proof.
  intros Hm Hu Hp Hno. unfold login. rewrite Hm, Hu, Hp. run.
  destruct (select_user_by_username (h_db st) username) as [u|]; [|reflexivity].
  now rewrite (Hno u eq_refl).
Qed.

(** A login is answered with the redirect to the dashboard exactly when an
    account has the username and its stored hash matches the password; the
    session then holds the id and the username of that account, which is
    the username that was typed, and the database is not changed. *)
Theorem login_succeeds_exactly_on_match
    (req : request) (st : hstate) (username password : string)
    (Hm : req_method req = POST)
    (Hu : form_get "username" (req_form req) = Some username)
    (Hp : form_get "password" (req_form req) = Some password) :
  (fst (login req st) = Redirect ep_dashboard <->
   exists u, select_user_by_username (h_db st) username = Some u /\
             check_password_hash (u_password_hash u) password = true) /\
  (fst (login req st) = Redirect ep_dashboard ->
   exists u, In u (rows (users (h_db st))) /\
             u_username u = username /\
             h_session (snd (login req st)) = session_of (u_id u) username /\
             h_db (snd (login req st)) = h_db st).
Proof.
  assert (Hiff : fst (login req st) = Redirect ep_dashboard ->
            exists u, select_user_by_username (h_db st) username = Some u /\
                      check_password_hash (u_password_hash u) password = true).
  { intros Hresp.
    destruct (select_user_by_username (h_db st) username) as [u|] eqn:Hsel.
    - destruct (check_password_hash (u_password_hash u) password) eqn:Hok.
      + now exists u.
      + rewrite (login_unmatched req st username password Hm Hu Hp) in Hresp;
          [discriminate|].
        intros u' Hu'. congruence.
    - rewrite (login_unmatched req st username password Hm Hu Hp) in Hresp;
        [discriminate|].
      intros u' Hu'. congruence. }
  split; [split; [exact Hiff|]|].
  - intros (u & Hsel & Hok).
    now rewrite (login_matched req st username password u Hm Hu Hp Hsel Hok).
  - intros Hresp. destruct (Hiff Hresp) as (u & Hsel & Hok).
    rewrite (login_matched req st username password u Hm Hu Hp Hsel Hok).
    unfold select_user_by_username in Hsel. apply find_some in Hsel.
    destruct Hsel as [Hin Hname]. apply String.eqb_eq in Hname.
    exists u. simpl. rewrite Hname. auto.
Qed.

(** An account that has just been registered can log in with the password
    it was registered with, provided the hash function accepts what it
    produced: the login is answered with the redirect to the dashboard, the
    session holds the new id and the username, and the dashboard then
    greets that username. *)
Theorem registered_account_can_log_in
    (env : environ) (st : hstate) (username email password : string)
    (Hfu : username_taken (h_db st) username = false)
    (Hfe : email_taken (h_db st) email = false)
    (Hhash : check_password_hash
               (generate_password_hash (env_salt env) password) password = true) :
  let st1 := snd (register env (register_request username email password) st) in
  let out := login (login_request username password) st1 in
  fst out = Redirect ep_dashboard /\
  h_session (snd out) = session_of (seq (users (h_db st)) + 1) username /\
  fst (dashboard (snd out)) = Render (dashboard_html username).
Proof.
  intros st1 out.
  destruct (register_fresh env (register_request username email password) st
              username email password eq_refl eq_refl eq_refl eq_refl Hfu Hfe)
    as (_ & Hdb & _).
  fold st1 in Hdb.
  assert (Hsel : select_user_by_username (h_db st1) username =
                 Some (mk_user (seq (users (h_db st)) + 1) username email
                         (generate_password_hash (env_salt env) password)
                         (env_now env))).
  { rewrite Hdb. unfold select_user_by_username. simpl. rewrite find_app.
    apply find_none_existsb in Hfu. unfold username_taken in Hfu.
    rewrite Hfu. simpl. now rewrite String.eqb_refl. }
  assert (Hout : out = (Redirect ep_dashboard,
            mk_hstate (h_db st1) (session_of (seq (users (h_db st)) + 1) username)
              (h_flashes st1 ++ [("Login successful!", "success")])
              (((h_trace st1 ++ [Connect]) ++ [Execute SelectUserByUsername])
               ++ [Close]))).
  { unfold out.
    now rewrite (login_matched (login_request username password) st1
                   username password _ eq_refl eq_refl eq_refl Hsel Hhash). }
  rewrite Hout. repeat split.
Qed.

(** Logging out empties the session whatever it held, makes no database
    call and leaves the database as it was; doing it again changes nothing
    more, and from then on every page behind the session check redirects to
    the login page and the stats update is answered 401. *)
Theorem logout_ends_the_session (env : environ) (req : request) (st : hstate) :
  let st' := snd (logout st) in
  fst (logout st) = Redirect ep_landing /\
  h_session st' = empty_session /\
  untouched st st' /\
  h_session (snd (logout st')) = empty_session /\
  fst (dashboard st') = Redirect ep_login /\
  fst (notepad env req st') = Redirect ep_login /\
  fst (tictactoe st') = Redirect ep_login /\
  fst (wordgame st') = Redirect ep_login /\
  fst (update_game_stats req st') = Json "error" 401.
Proof.
  intros st'.
  assert (Hanon : sess_user_id (h_session st') = None) by reflexivity.
  split; [reflexivity|]. split; [reflexivity|].
  split; [split; reflexivity|]. split; [reflexivity|].
  split; [apply (gate_dashboard st' Hanon)|].
  split; [apply (gate_notepad env req st' Hanon)|].
  split; [apply (gate_tictactoe st' Hanon)|].
  split; [apply (gate_wordgame st' Hanon)|].
  now rewrite (gate_update_game_stats req st' Hanon).
Qed.

(** *** Requests that are refused *)

(** A posted form that lacks a field the handler reads is answered 400:
    [login] and [register] then leave the whole state as it was, without a
    database call; [notepad] has opened its connection but runs no
    statement and changes nothing in the database. *)
Theorem missing_form_field_is_refused
    (env : environ) (req : request) (st : hstate)
    (Hm : req_method req = POST) :
  (form_get "username" (req_form req) = None \/
   form_get "password" (req_form req) = None ->
   login req st = (HttpError 400, st)) /\
  (form_get "username" (req_form req) = None \/
   form_get "email" (req_form req) = None \/
   form_get "password" (req_form req) = None ->
   register env req st = (HttpError 400, st)) /\
  (forall user_id,
     sess_user_id (h_session st) = Some user_id ->
     form_get "notes" (req_form req) = None ->
     fst (notepad env req st) = HttpError 400 /\
     h_db (snd (notepad env req st)) = h_db st /\
     h_session (snd (notepad env req st)) = h_session st /\
     h_trace (snd (notepad env req st)) = h_trace st ++ [Connect]).
Proof.
  split; [|split].
  - intros Hmiss. unfold login. rewrite Hm.
    destruct (form_get "username" (req_form req)); [|reflexivity].
    destruct (form_get "password" (req_form req)); [|reflexivity].
    destruct Hmiss; discriminate.
  - intros Hmiss. unfold register. rewrite Hm.
    destruct (form_get "username" (req_form req)); [|reflexivity].
    destruct (form_get "email" (req_form req)); [|reflexivity].
    destruct (form_get "password" (req_form req)); [|reflexivity].
    destruct Hmiss as [H | [H | H]]; discriminate.
  - intros user_id Hs Hmiss. unfold notepad. run. rewrite Hs. run.
    rewrite Hm, Hmiss. run. auto.
Qed.

(** A stats update from a logged-in account whose body is not a JSON
    object is refused with an error page and never answered as a success;
    the handler stops before it opens the database, and the whole state is
    as it was. *)
Theorem stats_update_needs_json_object
    (req : request) (st : hstate) (user_id : Z)
    (Hs : sess_user_id (h_session st) = Some user_id)
    (Hj : forall members, req_json req <> Parsed (JObj members)) :
  snd (update_game_stats req st) = st /\
  (exists code, fst (update_game_stats req st) = HttpError code /\ 400 <= code) /\
  fst (update_game_stats req st) <> Json "success" 200.
Proof.
  unfold update_game_stats. run. rewrite Hs.
  destruct (req_json req) as [| |j] eqn:E.
  - repeat split; [exists 415; split; [reflexivity | lia] | discriminate].
  - repeat split; [exists 400; split; [reflexivity | lia] | discriminate].
  - destruct j; try (repeat split;
                     [exists 500; split; [reflexivity | lia] | discriminate]).
    exfalso. now apply (Hj members).
Qed.

(** *** What a request can change *)

Ltac disciplined_leaf :=
  unfold disciplined; cbn [h_db h_trace snd];
  eexists; split;
  [ first [ rewrite <- !app_assoc; reflexivity
          | symmetry; apply app_nil_r
          | reflexivity ]
  | split;
    [ intros Hneq; first [ exfalso; apply Hneq; reflexivity | simpl; auto 10 ]
    | intros Hne; first [ reflexivity | exfalso; apply Hne; reflexivity ] ] ].

Lemma disciplined_login (req : request) (st : hstate) :
  disciplined st (snd (login req st)).
Proof.
  unfold login.
  destruct (req_method req); [disciplined_leaf|].
  destruct (form_get "username" (req_form req)); [|disciplined_leaf].
  destruct (form_get "password" (req_form req)); [|disciplined_leaf].
  run. destruct (select_user_by_username (h_db st) s) as [u|]; [|disciplined_leaf].
  destruct (check_password_hash (u_password_hash u) s0); disciplined_leaf.
Qed.

Lemma disciplined_register (env : environ) (req : request) (st : hstate) :
  disciplined st (snd (register env req st)).
Proof.
  unfold register.
  destruct (req_method req); [disciplined_leaf|].
  destruct (form_get "username" (req_form req)); [|disciplined_leaf].
  destruct (form_get "email" (req_form req)); [|disciplined_leaf].
  destruct (form_get "password" (req_form req)); [|disciplined_leaf].
  run. destruct (select_user_by_username (h_db st) s); [disciplined_leaf|].
  run. destruct (insert_user (h_db st) _ _ _ _); disciplined_leaf.
Qed.

Lemma disciplined_notepad (env : environ) (req : request) (st : hstate) :
  disciplined st (snd (notepad env req st)).
Proof.
  unfold notepad, notepad_show. run.
  destruct (sess_user_id (h_session st)) as [user_id|]; [|disciplined_leaf].
  run. destruct (req_method req).
  - run. destruct (sess_username (h_session st)); disciplined_leaf.
  - destruct (form_get "notes" (req_form req)); [|disciplined_leaf].
    run. destruct (select_note_id (h_db st) user_id); run;
      destruct (sess_username (h_session st)); disciplined_leaf.
Qed.

Lemma disciplined_tictactoe (st : hstate) : disciplined st (snd (tictactoe st)).
Proof.
  unfold tictactoe. run.
  destruct (sess_user_id (h_session st)); [|disciplined_leaf].
  run. destruct (sess_username (h_session st)); disciplined_leaf.
Qed.

Lemma disciplined_update_game_stats (req : request) (st : hstate) :
  disciplined st (snd (update_game_stats req st)).
Proof.
  unfold update_game_stats. run.
  destruct (sess_user_id (h_session st)) as [user_id|]; [|disciplined_leaf].
  destruct (req_json req) as [| |j]; try disciplined_leaf.
  destruct j; try disciplined_leaf.
  run. destruct (select_stats (h_db st) user_id) as [stats|].
  - destruct (bump _ stats) as [[wins losses] ties]. disciplined_leaf.
  - destruct (first_counts _) as [[wins losses] ties]. run.
    destruct (insert_stats (h_db st) user_id wins losses ties); disciplined_leaf.
Qed.

Lemma storage_free (h : M response) (st : hstate) :
  h = landing \/ h = dashboard \/ h = wordgame \/ h = logout ->
  untouched st (snd (h st)).
Proof.
  intros [-> | [-> | [-> | ->]]];
    [unfold landing | unfold dashboard | unfold wordgame | unfold logout];
    unfold untouched; run; auto;
    destruct (sess_user_id (h_session st)); run; auto;
    destruct (sess_username (h_session st)); auto.
Qed.

(** Whatever the request and the session, the database calls of a run
    begin with opening a connection, and the database the run leaves behind
    differs from the one it found only if the run committed.  The landing
    page, the dashboard, the word game and the logout make no database call
    at all. *)
Theorem database_changes_are_committed
    (env : environ) (req : request) (st : hstate) :
  disciplined st (snd (handle env req st)) /\
  (req_route req = r_landing \/ req_route req = r_dashboard \/
   req_route req = r_wordgame \/ req_route req = r_logout ->
   untouched st (snd (handle env req st))).
Proof.
  assert (Hfree : forall h : M response,
            untouched st (snd (h st)) -> disciplined st (snd (h st))).
  { intros h [Hdb Htr]. exists []. rewrite Htr, Hdb, app_nil_r.
    repeat split; tauto. }
  split.
  - unfold handle.
    destruct (req_route req), (req_method req);
      try apply disciplined_login; try apply disciplined_register;
      try apply disciplined_notepad; try apply disciplined_tictactoe;
      try apply disciplined_update_game_stats;
      apply Hfree; first [ apply storage_free; tauto | split; reflexivity ].
  - intros Hroute. unfold handle.
    destruct (req_route req), (req_method req);
      try (destruct Hroute as [H | [H | [H | H]]]; discriminate H);
      first [ apply storage_free; tauto | split; reflexivity ].
Qed.

(** A [GET] request never changes the database, on any route and under
    any session. *)
Theorem get_requests_never_write
    (env : environ) (req : request) (st : hstate)
    (Hm : req_method req = GET) :
  h_db (snd (handle env req st)) = h_db st.
Proof.
  unfold handle. rewrite Hm.
  destruct (req_route req); try reflexivity;
    try (apply storage_free; tauto).
  - unfold login. now rewrite Hm.
  - unfold register. now rewrite Hm.
  - unfold notepad, notepad_show. run.
    destruct (sess_user_id (h_session st)); [|reflexivity].
    run. rewrite Hm. run. now destruct (sess_username (h_session st)).
  - unfold tictactoe. run.
    destruct (sess_user_id (h_session st)); [|reflexivity].
    run. now destruct (sess_username (h_session st)).
Qed.

Lemma login_refused_keeps_session (req : request) (st : hstate) :
  fst (login req st) <> Redirect ep_dashboard ->
  h_session (snd (login req st)) = h_session st.
Proof.
  unfold login.
  destruct (req_method req); [reflexivity|].
  destruct (form_get "username" (req_form req)); [|reflexivity].
  destruct (form_get "password" (req_form req)); [|reflexivity].
  run. destruct (select_user_by_username (h_db st) s) as [u|]; [|reflexivity].
  destruct (check_password_hash (u_password_hash u) s0); [|reflexivity].
  intros H. now elim H.
Qed.

(** The session is written by nothing but a login that succeeds and a
    logout: every other request, a registration included, hands the session
    back as it received it. *)
Theorem session_is_written_only_by_login_and_logout
    (env : environ) (req : request) (st : hstate)
    (Hother : req_route req <> r_logout)
    (Hlogin : req_route req = r_login ->
              fst (handle env req st) <> Redirect ep_dashboard) :
  h_session (snd (handle env req st)) = h_session st.
Proof.
  unfold handle in *.
  destruct (req_route req) eqn:Hroute; try congruence.
  - destruct (req_method req); reflexivity.
  - assert (Hl : fst (login req st) <> Redirect ep_dashboard).
    { specialize (Hlogin eq_refl). now destruct (req_method req). }
    destruct (req_method req); now apply login_refused_keeps_session.
  - destruct (req_method req); apply register_effect.
  - destruct (req_method req); [|reflexivity].
    unfold dashboard. run. destruct (sess_user_id (h_session st)); run;
      [now destruct (sess_username (h_session st)) | reflexivity].
  - destruct (req_method req); apply notepad_effect.
  - destruct (req_method req); [|reflexivity].
    unfold tictactoe. run. destruct (sess_user_id (h_session st)); run;
      [now destruct (sess_username (h_session st)) | reflexivity].
  - destruct (req_method req); [reflexivity|]. apply update_game_stats_effect.
  - destruct (req_method req); [|reflexivity].
    unfold wordgame. run. destruct (sess_user_id (h_session st)); run;
      [now destruct (sess_username (h_session st)) | reflexivity].
Qed.

Lemma stats_of_update (db : database) (wins losses ties user_id other : Z) :
  stats_of (update_stats db wins losses ties user_id) other =
    if other =? user_id
    then map (fun g => mk_stats (g_id g) (g_user_id g) wins losses ties)
             (stats_of db other)
    else stats_of db other.
Proof.
  unfold stats_of, update_stats. simpl.
  induction (rows (game_stats db)) as [|g l IH]; simpl.
  - now destruct (other =? user_id).
  - destruct (g_user_id g =? user_id) eqn:E1; simpl.
    + apply Z.eqb_eq in E1. rewrite E1.
      destruct (user_id =? other) eqn:E2.
      * apply Z.eqb_eq in E2. subst other. rewrite Z.eqb_refl in *.
        simpl. now rewrite IH, E1.
      * rewrite IH. rewrite Z.eqb_sym in E2. now rewrite E2.
    + destruct (g_user_id g =? other) eqn:E2.
      * apply Z.eqb_eq in E2. subst other. rewrite E1 in *. simpl. now rewrite IH.
      * exact IH.
Qed.

Lemma db_step_isolation (s : session) (db db' : database) :
  db_step s db db' ->
  (forall other, sess_user_id s <> Some other ->
     notes_of db' other = notes_of db other /\
     stats_of db' other = stats_of db other) /\
  (sess_user_id s = None ->
     notes db' = notes db /\ game_stats db' = game_stats db).
Proof.
  intros Hstep.
  destruct Hstep as [db | db db' now username email pwhash Hins
                    | db user_id now content Hs
                    | db user_id now content Hs Hnone
                    | db user_id result stats wins losses ties Hs Hsel Hb
                    | db db' user_id result wins losses ties Hs Hc Hins].
  - split; auto.
  - apply insert_user_some in Hins. subst db'. split; auto.
  - split; [|congruence]. intros other Hne. split; [|reflexivity].
    rewrite notes_of_update.
    assert (E : (other =? user_id) = false) by (apply Z.eqb_neq; congruence).
    now rewrite E.
  - split; [|congruence]. intros other Hne. split; [|reflexivity].
    rewrite notes_of_insert.
    assert (E : (user_id =? other) = false) by (apply Z.eqb_neq; congruence).
    rewrite E. apply app_nil_r.
  - split; [|congruence]. intros other Hne. split; [reflexivity|].
    rewrite stats_of_update.
    assert (E : (other =? user_id) = false) by (apply Z.eqb_neq; congruence).
    now rewrite E.
  - unfold insert_stats in Hins. destruct (existsb _ _); [discriminate|].
    inversion Hins; subst db'.
    split; [|congruence]. intros other Hne. split; [reflexivity|].
    unfold stats_of. simpl. rewrite filter_app. simpl.
    assert (E : (user_id =? other) = false) by (apply Z.eqb_neq; congruence).
    rewrite E. apply app_nil_r.
Qed.

(** A request changes no note and no [game_stats] row of any account
    other than the one its session names, whatever the route and the body;
    a request without a session changes neither table at all. *)
Theorem requests_touch_only_own_rows
    (env : environ) (req : request) (st : hstate) :
  let db := h_db st in
  let db' := h_db (snd (handle env req st)) in
  (forall other, sess_user_id (h_session st) <> Some other ->
     notes_of db' other = notes_of db other /\
     stats_of db' other = stats_of db other) /\
  (sess_user_id (h_session st) = None ->
     notes db' = notes db /\ game_stats db' = game_stats db).
Proof.
  intros db db'.
  destruct (handle_effect env req st) as [Hstep _].
  exact (db_step_isolation _ _ _ Hstep).
Qed.

(** *** Accounts *)

Lemma not_taken_not_in (f : user_row -> string) (x : string) (l : list user_row) :
  existsb (fun u => String.eqb (f u) x) l = false -> ~ In x (map f l).
Proof.
  intros Hex Hin. apply in_map_iff in Hin. destruct Hin as (u & Hf & Hu).
  assert (Ht : existsb (fun u => String.eqb (f u) x) l = true).
  { apply existsb_exists. exists u. split; [exact Hu | now apply String.eqb_eq]. }
  congruence.
Qed.

Lemma nodup_snoc {A : Type} (l : list A) (a : A) :
  NoDup l -> ~ In a l -> NoDup (l ++ [a]).
Proof.
  intros Hnd Hnot. eapply Permutation_NoDup; [apply Permutation_cons_append|].
  now constructor.
Qed.

Lemma insert_user_users_inv (db db' : database)
    (now username email pwhash : string) :
  insert_user db now username email pwhash = Some db' ->
  users_inv db -> users_inv db'.
Proof.
  unfold insert_user. intros Hins (Hid & Hname & Hmail & Hle).
  destruct (username_taken db username || email_taken db email) eqn:Htaken;
    [discriminate|].
  apply orb_false_elim in Htaken. destruct Htaken as [Hfu Hfe].
  inversion Hins; subst db'; clear Hins.
  unfold users_inv. simpl. rewrite !map_app. simpl.
  split; [|split; [|split]].
  - apply nodup_snoc; [exact Hid|].
    intros Hin. apply in_map_iff in Hin. destruct Hin as (u & Hu & Hin).
    apply Hle in Hin. lia.
  - apply nodup_snoc; [exact Hname | now apply not_taken_not_in].
  - apply nodup_snoc; [exact Hmail | now apply not_taken_not_in].
  - intros u Hin. apply in_app_or in Hin.
    destruct Hin as [Hin | [<- | []]]; [apply Hle in Hin; lia | simpl; lia].
Qed.

Lemma insert_user_users_kept (db db' : database)
    (now username email pwhash : string) :
  insert_user db now username email pwhash = Some db' -> users_kept db db'.
Proof.
  intros Hins. apply insert_user_some in Hins. subst db'.
  eexists. reflexivity.
Qed.

Lemma users_kept_same (db db' : database) :
  users db' = users db -> users_kept db db'.
Proof. intros E. exists []. now rewrite E, app_nil_r. Qed.

Lemma users_inv_same (db db' : database) :
  users db' = users db -> users_inv db -> users_inv db'.
Proof. unfold users_inv. now intros ->. Qed.

Lemma db_step_users (s : session) (db db' : database) :
  db_step s db db' ->
  users_kept db db' /\ (users_inv db -> users_inv db').
Proof.
  intros Hstep.
  destruct Hstep as [db | db db' now username email pwhash Hins
                    | db user_id now content Hs
                    | db user_id now content Hs Hnone
                    | db user_id result stats wins losses ties Hs Hsel Hb
                    | db db' user_id result wins losses ties Hs Hc Hins];
    try (split; [now apply users_kept_same | now apply users_inv_same]).
  - split; [eapply insert_user_users_kept; eassumption
           | eapply insert_user_users_inv; eassumption].
  - unfold insert_stats in Hins. destruct (existsb _ _); [discriminate|].
    inversion Hins; subst db'.
    split; [now apply users_kept_same | now apply users_inv_same].
Qed.

Lemma init_db_users (env : environ) (db : database) :
  users_kept db (init_db env db) /\ (users_inv db -> users_inv (init_db env db)).
Proof.
  unfold init_db, insert_or_ignore_user.
  destruct (insert_user db _ _ _ _) as [db'|] eqn:Hins.
  - split; [eapply insert_user_users_kept; eassumption
           | eapply insert_user_users_inv; eassumption].
  - split; [now apply users_kept_same | tauto].
Qed.

(** Every operation on the store, a request on any route under any session
    or a start of the process, keeps the ids, the usernames and the emails
    of [users] free of duplicates, and keeps every account row as it is:
    accounts are only ever added at the end.  This holds on the empty file,
    hence in every state the application can reach. *)
Theorem accounts_stay_unique
    (op : operation) (db : database) (Hinv : users_inv db) :
  users_inv (perform op db) /\
  users_kept db (perform op db) /\
  (forall sys, reachable sys -> users_inv (sys_db sys)).
Proof.
  assert (Hop : forall op' d,
            users_kept d (perform op' d) /\
            (users_inv d -> users_inv (perform op' d))).
  { intros [env req s | env] d; simpl.
    - unfold serve.
      destruct (handle_effect env req (mk_hstate d s [] [])) as [Hstep _].
      exact (db_step_users _ _ _ Hstep).
    - apply init_db_users. }
  split; [now apply Hop|]. split; [apply Hop|].
  intros sys Hreach. induction Hreach as [env | sys sys' _ IH Hstep].
  - apply (Hop (Startup env) empty_db).
    unfold users_inv. simpl. repeat split; try constructor. intros u [].
  - destruct Hstep as [env req s sys _ | env sys]; simpl.
    + now apply (Hop (Request env req s) (sys_db sys)).
    + now apply (Hop (Startup env) (sys_db sys)).
Qed.


(** *** Sessions and rows belong to accounts *)





(** *** Reading back what was written *)

Lemma select_note_after_save (db : database) (now content : string) (user_id : Z) :
  select_note
    match select_note_id db user_id with
    | Some _ => update_note db now content user_id
    | None => insert_note db now user_id content
    end user_id = Some (content, now).
Proof.
  rewrite select_note_id_hd.
  destruct (notes_of db user_id) as [|n l] eqn:Hn; simpl.
  - rewrite select_note_hd, notes_of_insert, Hn, Z.eqb_refl. reflexivity.
  - rewrite select_note_hd, notes_of_update, Hn, Z.eqb_refl. reflexivity.
Qed.

Lemma notepad_show_found (st : hstate) (user_id : Z) (username content t : string) :
  h_session st = session_of user_id username ->
  select_note (h_db st) user_id = Some (content, t) ->
  fst (notepad_show user_id st) =
    Render (notepad_html username content (Some (shown_timestamp t))).
Proof.
  intros Hs Hsel. unfold notepad_show, shown_timestamp. run.
  rewrite Hsel, Hs. simpl. now destruct (String.eqb t "").
Qed.

(** A save answers with the page showing the content that was posted and
    the time of the save, and any later read by the same account, until it
    saves again, shows that same content and time; this holds whatever the
    [notes] table held before. *)
Theorem saved_note_is_shown
    (env env' : environ) (req req' : request) (st : hstate)
    (user_id : Z) (username content : string)
    (Hs : h_session st = session_of user_id username)
    (Hm : req_method req = POST)
    (Hf : form_get "notes" (req_form req) = Some content)
    (Hm' : req_method req' = GET) :
  fst (notepad env req st) =
    Render (notepad_html username content
                         (Some (shown_timestamp (env_now env)))) /\
  fst (notepad env' req' (snd (notepad env req st))) =
    Render (notepad_html username content
                         (Some (shown_timestamp (env_now env)))).
Proof.
  assert (Hid : sess_user_id (h_session st) = Some user_id) by now rewrite Hs.
  pose proof (select_note_after_save (h_db st) (env_now env) content user_id)
    as Hsel.
  split.
  - unfold notepad. run. rewrite Hid. run. rewrite Hm, Hf. run.
    destruct (select_note_id (h_db st) user_id); run;
      now apply notepad_show_found.
  - destruct (notepad_post_db env req st user_id content Hid Hm Hf)
      as [Hdb Hsess].
    set (st' := snd (notepad env req st)) in *.
    rewrite <- Hdb in Hsel. rewrite Hs in Hsess.
    unfold notepad. run. rewrite Hsess. simpl. run. rewrite Hm'.
    apply (notepad_show_found
             (mk_hstate (h_db st') (h_session st') (h_flashes st')
                        (h_trace st' ++ [Connect]))); assumption.
Qed.

(** *** Tallies *)

Lemma report_db (user_id : Z) (result : json) (db : database) :
  report user_id result db =
    match select_stats db user_id with
    | Some stats =>
        let '(wins, losses, ties) := bump result stats in
        update_stats db wins losses ties user_id
    | None =>
        let '(wins, losses, ties) := first_counts result in
        mk_db (users db) (notes db)
              (append_row (fun i => mk_stats i user_id wins losses ties)
                          (game_stats db))
    end.
Proof.
  unfold report.
  destruct (select_stats db user_id) as [stats|] eqn:Hrow.
  - destruct (update_game_stats_existing (report_request result)
                (mk_hstate db (session_of user_id "") [] []) user_id
                [("result", result)] stats eq_refl eq_refl Hrow) as (_ & Hdb & _).
    exact Hdb.
  - destruct (update_game_stats_first (report_request result)
                (mk_hstate db (session_of user_id "") [] []) user_id
                [("result", result)] eq_refl eq_refl Hrow) as (_ & Hdb & _).
    exact Hdb.
Qed.

Lemma bump_as_sum (result : json) (wins losses ties : Z) :
  bump result (wins, losses, ties) =
    (wins + counted result "win", losses + counted result "loss",
     ties + counted result "tie").
Proof.
  unfold bump, counted.
  destruct (json_eq_str result "win") eqn:Ew.
  - apply json_eq_str_true in Ew. subst result. simpl.
    f_equal; [f_equal|]; lia.
  - destruct (json_eq_str result "loss") eqn:El.
    + apply json_eq_str_true in El. subst result. simpl.
      f_equal; [f_equal|]; lia.
    + destruct (json_eq_str result "tie"); f_equal; try f_equal; lia.
Qed.

Lemma first_counts_as_sum (result : json) :
  first_counts result =
    (counted result "win", counted result "loss", counted result "tie").
Proof. reflexivity. Qed.

Lemma count_result_cons (s : string) (r : json) (results : list json) :
  count_result s (r :: results) = counted r s + count_result s results.
Proof.
  unfold count_result, counted. simpl.
  destruct (json_eq_str r s); simpl List.length; lia.
Qed.

Lemma report_all_existing (user_id : Z) (results : list json) :
  forall (db : database) (wins losses ties : Z),
    select_stats db user_id = Some (wins, losses, ties) ->
    select_stats (report_all user_id results db) user_id =
      Some (wins + count_result "win" results,
            losses + count_result "loss" results,
            ties + count_result "tie" results).
Proof.
  induction results as [|r results IH]; intros db wins losses ties Hrow.
  - simpl. rewrite Hrow. unfold count_result. simpl.
    now rewrite !Z.add_0_r.
  - unfold report_all. simpl. fold (report_all user_id results (report user_id r db)).
    pose proof (report_existing user_id r db _ Hrow) as Hnext.
    rewrite bump_as_sum in Hnext.
    rewrite (IH _ _ _ _ Hnext), !count_result_cons.
    f_equal. f_equal; [f_equal|]; lia.
Qed.

(** After an account has reported any list of results in turn, its
    counters are what they were plus the number of ['win'], of ['loss'] and
    of ['tie'] in the list, anything else in the list counting for nothing;
    for an account that had no row, the counters of the row made by the
    first report are exactly these numbers. *)
Theorem stats_tally_the_reports
    (user_id : Z) (results : list json) (db : database) :
  (forall wins losses ties,
     select_stats db user_id = Some (wins, losses, ties) ->
     select_stats (report_all user_id results db) user_id =
       Some (wins + count_result "win" results,
             losses + count_result "loss" results,
             ties + count_result "tie" results)) /\
  (select_stats db user_id = None -> results <> [] ->
   select_stats (report_all user_id results db) user_id =
     Some (count_result "win" results, count_result "loss" results,
           count_result "tie" results)).
Proof.
  split; [apply report_all_existing|].
  intros Hnone Hne. destruct results as [|r results]; [congruence|].
  unfold report_all. simpl. fold (report_all user_id results (report user_id r db)).
  pose proof (report_first user_id r db Hnone) as Hnext.
  rewrite first_counts_as_sum in Hnext.
  rewrite (report_all_existing _ _ _ _ _ _ Hnext), !count_result_cons.
  reflexivity.
Qed.

(** *** The leaderboard moves on wins only *)

Lemma filter_flat_map {A B : Type} (p : B -> bool) (f : A -> list B) (l : list A) :
  filter p (flat_map f l) = flat_map (fun a => filter p (f a)) l.
Proof.
  induction l as [|a l IH]; simpl; [reflexivity|].
  now rewrite filter_app, IH.
Qed.

Lemma join_rows_ext (name : string) (k : Z) (f : stats_row -> stats_row)
    (l : list stats_row) :
  (forall g, In g l -> g_user_id (f g) = g_user_id g /\ g_wins (f g) = g_wins g) ->
  map (fun g => (name, g_wins g)) (filter (fun g => k =? g_user_id g) (map f l)) =
  map (fun g => (name, g_wins g)) (filter (fun g => k =? g_user_id g) l).
Proof.
  induction l as [|g l IH]; intros Hf; simpl; [reflexivity|].
  destruct (Hf g (or_introl eq_refl)) as [Hk Hw]. rewrite Hk.
  destruct (k =? g_user_id g); simpl; rewrite IH;
    try (intros g' Hin; apply Hf; now right); now rewrite ?Hw.
Qed.

(** Reporting anything but a win leaves the leaderboard as it is, whether
    the account had a [game_stats] row or gets one by this report. *)
Theorem only_wins_move_the_leaderboard
    (user_id : Z) (result : json) (db : database)
    (Hinv : stats_inv db)
    (Hres : result <> JStr "win") :
  select_leaderboard (report user_id result db) = select_leaderboard db.
Proof.
  destruct Hinv as [Hnd _]. apply json_eq_str_false in Hres.
  rewrite report_db. unfold select_leaderboard. f_equal. f_equal.
  destruct (select_stats db user_id) as [[[wins losses] ties]|] eqn:Hrow.
  - assert (Hb : exists losses' ties',
               bump result (wins, losses, ties) = (wins, losses', ties')).
    { unfold bump. rewrite Hres.
      destruct (json_eq_str result "loss"); [eauto|].
      destruct (json_eq_str result "tie"); eauto. }
    destruct Hb as (losses' & ties' & ->).
    unfold select_stats in Hrow.
    destruct (find _ _) as [g0|] eqn:Hfind; [|discriminate].
    apply find_some in Hfind. destruct Hfind as [Hin0 Hk0].
    apply Z.eqb_eq in Hk0. simpl in Hrow. inversion Hrow; subst; clear Hrow.
    f_equal. unfold join_users_stats, update_stats. simpl.
    apply flat_map_ext. intros u. apply join_rows_ext.
    intros g Hin. destruct (g_user_id g =? g_user_id g0) eqn:E; simpl; [|auto].
    apply Z.eqb_eq in E. split; [reflexivity|].
    now rewrite (nodup_map_inj g_user_id _ g g0 Hnd Hin Hin0 E).
  - unfold first_counts. rewrite Hres.
    unfold join_users_stats. simpl. rewrite !filter_flat_map.
    apply flat_map_ext. intros u.
    rewrite filter_app, map_app, filter_app. simpl.
    destruct (u_id u =? user_id); simpl; now rewrite app_nil_r.
Qed.

Lemma in_firstn_or_skipn {A : Type} (n : nat) (l : list A) (a : A) :
  In a l -> In a (firstn n l) \/ In a (skipn n l).
Proof.
  intros Hin. rewrite <- (firstn_skipn n l) in Hin. now apply in_app_or.
Qed.

Lemma skipn_inhabited_length {A : Type} (n : nat) (l : list A) (a : A) :
  In a (skipn n l) -> List.length (firstn n l) = n.
Proof.
  intros Hin. apply firstn_length_le.
  destruct (Nat.le_gt_cases n (List.length l)) as [Hle | Hgt]; [exact Hle|].
  rewrite skipn_all2 in Hin by lia. destruct Hin.
Qed.

(** A reported win shows: after an account of [users] has reported a win,
    its win count is above zero and the leaderboard lists the account with
    that count, unless the leaderboard is full with five entries that each
    have at least as many wins. *)
Theorem reported_win_reaches_leaderboard
    (u : user_row) (db : database)
    (Hu : In u (rows (users db)))
    (Hinv : stats_inv db) :
  let db' := report (u_id u) (JStr "win") db in
  exists wins losses ties,
    select_stats db' (u_id u) = Some (wins, losses, ties) /\
    0 < wins /\
    (In (u_username u, wins) (select_leaderboard db') \/
     List.length (select_leaderboard db') = 5%nat /\
     forall r, In r (select_leaderboard db') -> wins <= snd r).
Proof.
  intros db'.
  assert (Hsel : exists wins losses ties,
             select_stats db' (u_id u) = Some (wins, losses, ties) /\ 0 < wins).
  { destruct (select_stats db (u_id u)) as [[[w l] t]|] eqn:Hrow.
    - exists (w + 1), l, t. split.
      + unfold db'. now rewrite (report_existing _ _ _ _ Hrow).
      + destruct Hinv as [_ Hpos]. rewrite Forall_forall in Hpos.
        unfold select_stats in Hrow.
        destruct (find _ _) as [g0|] eqn:Hfind; [|discriminate].
        apply find_some in Hfind. destruct Hfind as [Hin0 _].
        apply Hpos in Hin0. simpl in Hrow. inversion Hrow; subst. lia.
    - exists 1, 0, 0. split; [|lia].
      unfold db'. now rewrite (report_first _ _ _ Hrow). }
  destruct Hsel as (wins & losses & ties & Hsel & Hpos).
  exists wins, losses, ties. split; [exact Hsel|]. split; [exact Hpos|].
  assert (Husers : users db' = users db).
  { unfold db'. rewrite report_db.
    destruct (select_stats db (u_id u)) as [stats|].
    - now destruct (bump _ stats) as [[? ?] ?].
    - now destruct (first_counts _) as [[? ?] ?]. }
  assert (Hq : In (u_username u, wins)
                  (filter (fun r => 0 <? snd r) (join_users_stats db'))).
  { apply filter_In. split; [|now apply Z.ltb_lt].
    apply join_users_stats_in.
    unfold select_stats in Hsel.
    destruct (find _ _) as [g|] eqn:Hfind; [|discriminate].
    apply find_some in Hfind. destruct Hfind as [Hin Hk]. apply Z.eqb_eq in Hk.
    simpl in Hsel. inversion Hsel; subst.
    exists u, g. rewrite Husers. auto. }
  set (q := filter (fun r => 0 <? snd r) (join_users_stats db')) in *.
  apply (Permutation_in _ (Permutation_sym (order_by_wins_desc_perm q))) in Hq.
  unfold select_leaderboard. fold q.
  destruct (in_firstn_or_skipn 5 _ _ Hq) as [Hfirst | Hrest]; [now left|].
  right. split; [now apply (skipn_inhabited_length 5 _ _ Hrest)|].
  intros r Hr.
  pose proof (strongly_sorted_split ge_wins 5 _ (order_by_wins_desc_sorted q)
                r _ Hr Hrest) as Hge.
  unfold ge_wins in Hge. simpl in Hge. lia.
Qed.

End Properties.

(** ** The theorems at work on concrete requests *)

Lemma unauthenticated_never_touches_storage_witness :
  sess_user_id (h_session st_anon) = None /\
  fst (notepad env1 (save_request "hello") st_anon) = Redirect ep_login /\
  untouched st_anon (snd (notepad env1 (save_request "hello") st_anon)) /\
  fst (update_game_stats (report_request (JStr "win")) st_anon) = Json "error" 401.
Proof.
  destruct (unauthenticated_never_touches_storage
              env1 (save_request "hello") st_anon eq_refl)
    as ([Hn1 Hn2] & _).
  destruct (unauthenticated_never_touches_storage
              env1 (report_request (JStr "win")) st_anon eq_refl)
    as (_ & _ & _ & _ & [Hu _] & _).
  repeat split; assumption.
Defined.

Lemma register_rejects_duplicates_witness :
  fst (register env1 (register_request "alice" "alice@example.com" "pw") st_anon)
    = Redirect ep_login /\
  fst (register env1 (register_request "demo" "other@example.com" "pw") st_anon)
    = Render register_html /\
  h_db (snd (register env1 (register_request "bob" "demo@example.com" "pw") st_anon))
    = db0.
Proof.
  destruct (register_rejects_duplicates
              env1 (register_request "alice" "alice@example.com" "pw") st_anon
              "alice" "alice@example.com" "pw" eq_refl eq_refl eq_refl eq_refl)
    as [_ Hfresh].
  destruct (register_rejects_duplicates
              env1 (register_request "demo" "other@example.com" "pw") st_anon
              "demo" "other@example.com" "pw" eq_refl eq_refl eq_refl eq_refl)
    as [Hname _].
  destruct (register_rejects_duplicates
              env1 (register_request "bob" "demo@example.com" "pw") st_anon
              "bob" "demo@example.com" "pw" eq_refl eq_refl eq_refl eq_refl)
    as [Hmail _].
  split; [apply Hfresh; split; reflexivity|].
  split; [apply Hname; left; reflexivity|].
  apply Hmail. right. reflexivity.
Defined.

Lemma login_failure_is_generic_witness :
  fst (login (login_request "nobody" "demo123") st_anon) = Render login_html /\
  fst (login (login_request "demo" "guess") st_anon) = Render login_html /\
  snd (login (login_request "nobody" "demo123") st_anon)
    = snd (login (login_request "demo" "guess") st_anon) /\
  h_session (snd (login (login_request "demo" "guess") st_anon)) = empty_session.
Proof.
  assert (Habsent : select_user_by_username (h_db st_anon) "nobody" = None)
    by reflexivity.
  assert (Hwrong : exists u,
             select_user_by_username (h_db st_anon) "demo" = Some u /\
             check_password_hash (u_password_hash u) "guess" = false).
  { eexists. split; reflexivity. }
  rewrite (login_failure_is_generic (login_request "nobody" "demo123") st_anon
             "nobody" "demo123" eq_refl eq_refl eq_refl (or_introl Habsent)).
  rewrite (login_failure_is_generic (login_request "demo" "guess") st_anon
             "demo" "guess" eq_refl eq_refl eq_refl (or_intror Hwrong)).
  repeat split.
Defined.

Lemma stats_update_counts_result_witness :
  select_stats (h_db st_played) 1 = Some (1, 0, 0) /\
  select_stats (h_db (snd (update_game_stats (report_request (JStr "loss")) st_played))) 1
    = Some (1, 1, 0) /\
  select_stats (report 1 (JStr "loss")
                  (report 1 (JStr "win") (report 1 (JStr "win") db0))) 1
    = Some (2, 1, 0).
Proof.
  destruct (stats_update_counts_result
              (report_request (JStr "loss")) st_played 1
              [("result", JStr "loss")] 1 0 0 eq_refl eq_refl eq_refl)
    as (_ & _ & Hloss & _ & _ & _ & _ & Hseq).
  split; [reflexivity|].
  split; [apply Hloss; reflexivity | apply Hseq; reflexivity].
Defined.

(** C5, as the specification has it, fails: the demo account, which has
    no [game_stats] row, reports [{"result": "draw"}] and gets the row
    (0, 0, 0), in which no counter is 1. *)
Lemma first_report_counts_one_fails : ~ first_report_counts_one.
Proof.
  intros Hclaim.
  destruct (Hclaim (report_request (JStr "draw")) st_demo 1
                   [("result", JStr "draw")] eq_refl eq_refl eq_refl)
    as (c & Hc & Hone).
  vm_compute in Hc. inversion Hc; subst c.
  destruct Hone as [H | [H | H]]; discriminate H.
Qed.

Lemma first_report_creates_row_witness :
  select_stats (h_db st_demo) 1 = None /\
  exists c,
    select_stats (h_db (snd (update_game_stats (report_request (JStr "tie")) st_demo))) 1
      = Some c /\ one_counted c.
Proof.
  split; [reflexivity|].
  destruct (first_report_creates_row
              (report_request (JStr "tie")) st_demo 1 [("result", JStr "tie")]
              eq_refl eq_refl eq_refl (or_intror (or_intror eq_refl)))
    as (_ & (c & Hc & Hone & _) & _).
  exists c. split; assumption.
Defined.

Lemma leaderboard_top_five_witness :
  map snd (select_leaderboard db_five) = [5; 3; 3; 1] /\
  descending (select_leaderboard db_five).
Proof.
  destruct (leaderboard_top_five db_five) as (_ & Hdesc & _ & _ & _ & Hfive & _).
  split; [|exact Hdesc].
  apply Hfive.
  change (map snd (join_users_stats db_five)) with [3; 0; 5; 1; 3].
  apply (Permutation_cons_app [5] [3; 1; 0]).
  apply (Permutation_cons_app [5; 3; 1] []).
  apply perm_skip. apply perm_swap.
Defined.

Lemma note_save_is_upsert_witness :
  select_note (h_db (snd (notepad env1 (save_request "first") st_demo))) 1
    = Some ("first", env_now env1) /\
  select_note (fold_left (save 1) [(env0, "first"); (env1, "second")] db0) 1
    = Some ("second", env_now env1).
Proof.
  destruct (note_save_is_upsert env1 (save_request "first") st_demo 1 "first"
              eq_refl eq_refl eq_refl)
    as (_ & Hins & _ & _ & _ & _ & _ & Hseq).
  split; [apply Hins; reflexivity|].
  apply (Hseq db0 [(env0, "first")] (env1, "second")).
  simpl. apply Nat.le_0_l.
Defined.

Lemma game_stats_invariants_preserved_witness :
  stats_inv db0 /\
  stats_inv (perform (Request env1 (report_request (JStr "win"))
                              (session_of 1 "demo")) db0).
Proof.
  assert (Hinv : stats_inv db0).
  { split; [apply NoDup_nil | apply Forall_nil]. }
  split; [exact Hinv|].
  apply (game_stats_invariants_preserved
           (Request env1 (report_request (JStr "win")) (session_of 1 "demo"))
           db0 Hinv).
Defined.

Lemma note_of_account_without_row_is_empty_witness :
  notes_of (h_db st_demo) 1 = [] /\
  fst (notepad env1 read_request st_demo) = Render (notepad_html "demo" "" None).
Proof.
  split; [reflexivity|].
  destruct (note_of_account_without_row_is_empty
              env1 read_request st_demo 1 "demo" eq_refl eq_refl eq_refl)
    as [Hread _].
  rewrite Hread. reflexivity.
Defined.

Lemma unknown_first_report_creates_zero_row_witness :
  select_stats (h_db (snd (update_game_stats (report_request (JStr "draw")) st_demo))) 1
    = Some (0, 0, 0) /\
  select_stats
    (h_db (snd (update_game_stats
                  (mk_request r_update_game_stats POST [] (Parsed (JObj [])))
                  st_demo))) 1
    = Some (0, 0, 0).
Proof.
  assert (Hdraw : dict_get "result" [("result", JStr "draw")] <> JStr "win" /\
                  dict_get "result" [("result", JStr "draw")] <> JStr "loss" /\
                  dict_get "result" [("result", JStr "draw")] <> JStr "tie").
  { repeat split; intros H; discriminate H. }
  assert (Habsent : forall kv : string * json, In kv [] -> fst kv <> "result").
  { intros kv []. }
  split.
  - apply (unknown_first_report_creates_zero_row
             (report_request (JStr "draw")) st_demo 1 [("result", JStr "draw")]
             eq_refl eq_refl eq_refl (or_intror Hdraw)).
  - apply (unknown_first_report_creates_zero_row
             (mk_request r_update_game_stats POST [] (Parsed (JObj [])))
             st_demo 1 [] eq_refl eq_refl eq_refl (or_introl Habsent)).
Defined.

Lemma login_succeeds_exactly_on_match_witness :
  fst (login (login_request "demo" "demo123") st_anon) = Redirect ep_dashboard /\
  fst (login (login_request "demo" "demo124") st_anon) <> Redirect ep_dashboard.
Proof.
  destruct (login_succeeds_exactly_on_match
              (login_request "demo" "demo123") st_anon "demo" "demo123"
              eq_refl eq_refl eq_refl) as [[_ Hback] _].
  destruct (login_succeeds_exactly_on_match
              (login_request "demo" "demo124") st_anon "demo" "demo124"
              eq_refl eq_refl eq_refl) as [[Hforth _] _].
  split.
  - apply Hback. eexists. split; reflexivity.
  - intros Hresp. destruct (Hforth Hresp) as (u & Hsel & Hok).
    inversion Hsel; subst u. discriminate Hok.
Defined.

Lemma registered_account_can_log_in_witness :
  h_session
    (snd (login (login_request "alice" "pw")
            (snd (register env1 (register_request "alice" "alice@example.com" "pw")
                           st_anon))))
  = session_of 2 "alice".
Proof.
  destruct (registered_account_can_log_in (P := toy_platform)
              env1 st_anon "alice" "alice@example.com" "pw"
              eq_refl eq_refl eq_refl) as (_ & Hsess & _).
  exact Hsess.
Defined.

Lemma missing_form_field_is_refused_witness :
  login (mk_request r_login POST [("username", "demo")] NoJson) st_anon
    = (HttpError 400, st_anon) /\
  fst (notepad env1 (mk_request r_notepad POST [] NoJson) st_demo) = HttpError 400.
Proof.
  destruct (missing_form_field_is_refused
              env1 (mk_request r_login POST [("username", "demo")] NoJson)
              st_anon eq_refl) as (Hlogin & _).
  destruct (missing_form_field_is_refused
              env1 (mk_request r_notepad POST [] NoJson) st_demo eq_refl)
    as (_ & _ & Hnote).
  split; [apply Hlogin; right; reflexivity|].
  apply (Hnote 1 eq_refl eq_refl).
Defined.

Lemma stats_update_needs_json_object_witness :
  snd (update_game_stats
         (mk_request r_update_game_stats POST [] (Parsed (JArr [JStr "win"])))
         st_demo) = st_demo.
Proof.
  apply (stats_update_needs_json_object
           (mk_request r_update_game_stats POST [] (Parsed (JArr [JStr "win"])))
           st_demo 1 eq_refl).
  intros members H. discriminate H.
Defined.

Lemma database_changes_are_committed_witness :
  disciplined st_demo (snd (handle env1 (save_request "hello") st_demo)) /\
  untouched st_demo (snd (handle env1 (mk_request r_logout GET [] NoJson) st_demo)).
Proof.
  split.
  - apply (database_changes_are_committed env1 (save_request "hello") st_demo).
  - apply (database_changes_are_committed
             env1 (mk_request r_logout GET [] NoJson) st_demo).
    right. right. right. reflexivity.
Defined.

Lemma get_requests_never_write_witness :
  h_db (snd (handle env1 read_request st_demo)) = h_db st_demo.
Proof.
  apply (get_requests_never_write env1 read_request st_demo eq_refl).
Defined.

Lemma session_is_written_only_by_login_and_logout_witness :
  h_session
    (snd (handle env1 (register_request "alice" "alice@example.com" "pw") st_demo))
  = h_session st_demo.
Proof.
  apply (session_is_written_only_by_login_and_logout
           env1 (register_request "alice" "alice@example.com" "pw") st_demo).
  - intros H. discriminate H.
  - intros H. discriminate H.
Defined.

Lemma requests_touch_only_own_rows_witness :
  notes_of (h_db (snd (handle env1 (save_request "hello") st_demo))) 2
    = notes_of (h_db st_demo) 2 /\
  game_stats (h_db (snd (handle env1 (report_request (JStr "win")) st_anon)))
    = game_stats (h_db st_anon).
Proof.
  destruct (requests_touch_only_own_rows env1 (save_request "hello") st_demo)
    as [Hother _].
  destruct (requests_touch_only_own_rows env1 (report_request (JStr "win")) st_anon)
    as [_ Hanon].
  split.
  - apply (Hother 2). intros H. discriminate H.
  - apply Hanon. reflexivity.
Defined.

Lemma accounts_stay_unique_witness :
  users_inv db0 /\
  users_inv (perform (Request env1
                        (register_request "alice" "alice@example.com" "pw")
                        empty_session) db0).
Proof.
  assert (Hinv : users_inv db0).
  { unfold users_inv. simpl.
    repeat split; try (constructor; [intros [] | constructor]).
    intros u [<- | []]. simpl. apply Z.le_refl. }
  split; [exact Hinv|].
  apply (accounts_stay_unique
           (Request env1 (register_request "alice" "alice@example.com" "pw")
                    empty_session) db0 Hinv).
Defined.



Lemma saved_note_is_shown_witness :
  fst (notepad env0 read_request
               (snd (notepad env1 (save_request "hello") st_demo)))
  = Render (notepad_html "demo" "hello" (Some "2024-01-02 00:00:00")).
Proof.
  destruct (saved_note_is_shown env1 env0 (save_request "hello") read_request
              st_demo 1 "demo" "hello" eq_refl eq_refl eq_refl eq_refl)
    as [_ Hread].
  exact Hread.
Defined.

Lemma stats_tally_the_reports_witness :
  select_stats
    (report_all 1 [JStr "win"; JStr "draw"; JStr "loss"; JStr "win"; JNull] db0) 1
  = Some (2, 1, 0).
Proof.
  destruct (stats_tally_the_reports
              1 [JStr "win"; JStr "draw"; JStr "loss"; JStr "win"; JNull] db0)
    as [_ Hfirst].
  rewrite Hfirst; [reflexivity | reflexivity | intros H; discriminate H].
Defined.

Lemma db_five_stats_inv : stats_inv db_five.
Proof.
  split; simpl.
  - repeat (constructor;
            [simpl; intros H;
             repeat (destruct H as [H | H]; [discriminate H|]); exact H|]).
    constructor.
  - repeat (constructor; [simpl; repeat split; discriminate|]). constructor.
Defined.

Lemma only_wins_move_the_leaderboard_witness :
  select_leaderboard (report 2 (JStr "loss") db_five) = select_leaderboard db_five.
Proof.
  apply (only_wins_move_the_leaderboard 2 (JStr "loss") db_five db_five_stats_inv).
  intros H. discriminate H.
Defined.

Lemma reported_win_reaches_leaderboard_witness :
  exists wins losses ties,
    select_stats (report 2 (JStr "win") db_five) 2 = Some (wins, losses, ties) /\
    0 < wins.
Proof.
  destruct (reported_win_reaches_leaderboard
              (mk_user 2 "bob" "bob@example.com" "h" "t") db_five
              (or_intror (or_introl eq_refl)) db_five_stats_inv)
    as (wins & losses & ties & Hsel & Hpos & _).
  exists wins, losses, ties. split; assumption.
Defined.
